(** * Arduino IDE: board data store and debug eligibility

    A shallow embedding of
    - [arduino-ide-extension/src/browser/boards/boards-data-store.ts]
      (the per-board configuration cache over the key-value storage
      service), and
    - [arduino-ide-extension/src/browser/contributions/debug.ts]
      (the [isDebugEnabled] decision function and the compile-for-debug
      toggle),
    followed by the properties proved about them.

    Conventions.  A TypeScript value of type [T | undefined] is an
    [option T].  JavaScript truthiness is written out: [!s] on a
    [string | undefined] holds for [undefined] and for the empty string.
    Stateful code threads an explicit state through a small state monad;
    the callbacks handed to [isDebugEnabled] are recorded in a call trace. *)

From stdpp Require Import base option list strings gmap.

Set Default Proof Using "Type".
Local Open Scope string_scope.
Local Open Scope list_scope.

(** ** JavaScript preliminaries *)

(** [!s] for [s : string | undefined]. *)
Definition falsy (s : option string) : bool :=
  match s with
  | None => true
  | Some s => bool_decide (s = "")
  end.

(** The narrowing that a passed [if (!s) ...] guard gives: the string,
    known to be non-empty. *)
Definition truthy (s : option string) : option string :=
  if falsy s then None else s.

(** [haystack.includes(needle)]. *)
Fixpoint includes (needle haystack : string) : bool :=
  String.prefix needle haystack ||
  match haystack with
  | EmptyString => false
  | String _ rest => includes needle rest
  end.

(** [deepClone] of an immutable value is the value. *)
Definition deepClone {A : Type} (a : A) : A := a.

(** What a call of an injected service or of a callback of type
    [MaybePromise<A>] does: it returns a value (or a promise that
    fulfils with it), throws synchronously, or returns a promise that
    rejects. *)
Inductive Outcome (Err A : Type) : Type :=
  | Returns (a : A)
  | Throws (e : Err)
  | Rejects (e : Err).
Arguments Returns {Err A} a.
Arguments Throws {Err A} e.
Arguments Rejects {Err A} e.

(** ** common/protocol (the parts the two files use) *)

Module Programmer.
Record t : Type := mk { id : string; name : string; platform : string }.
End Programmer.

Module ConfigValue.
Record t : Type := mk { label : string; value : string; selected : bool }.
End ConfigValue.

Module ConfigOption.
Record t : Type :=
  mk { option : string; label : string; values : list ConfigValue.t }.
End ConfigOption.

Module BoardDetails.
Record t : Type := mk {
  fqbn : string;
  configOptions : list ConfigOption.t;
  programmers : list Programmer.t;
  defaultProgrammerId : option string;
  VID : string;
  PID : string;
  buildProperties : list string;
}.
End BoardDetails.

Module BoardIdentifier.
Record t : Type := mk { name : string; fqbn : option string }.
End BoardIdentifier.

Module Sketch.
Record t : Type := mk { name : string; uri : string; mainFileUri : string }.
End Sketch.

Module CheckDebugEnabledParams.
Record t : Type := mk { fqbn : string; programmer : string; sketchUri : string }.
End CheckDebugEnabledParams.

(** The helpers of [common/protocol] that the data store calls; their
    source is not part of the two files, so they are parameters. *)
Class ProtocolHelpers : Type := {
  (** [Programmer.equals(left, right)] *)
  Programmer_equals : Programmer.t -> Programmer.t -> bool;
  (** [ConfigOption.decorate(fqbn, configOptions)], of result type [string] *)
  ConfigOption_decorate : string -> list ConfigOption.t -> string;
}.

(** The injected [BoardsService], and how a caught value is inspected
    ([err instanceof Error] together with [err.message]). *)
Class BoardsService (Err : Type) : Type := {
  getBoardDetails : string -> Outcome Err (option BoardDetails.t);
  errorMessage : Err -> option string;
}.

(** ** boards-data-store.ts *)

Module BoardsDataStore.

(** [BoardsDataStore.Data] *)
Module Data.
Record t : Type := mk {
  configOptions : list ConfigOption.t;
  programmers : list Programmer.t;
  selectedProgrammer : option Programmer.t;
  defaultProgrammerId : option string;
}.

Definition EMPTY : t :=
  {| configOptions := []; programmers := [];
     selectedProgrammer := None; defaultProgrammerId := None |}.
End Data.

(** What the storage service holds under a key is untyped.  A property
    of a stored object, as [Data.is] sees it: it is missing
    ([undefined]), it passes the test [Data.is] applies to it
    ([Array.isArray] for the two lists, [isProgrammer] for the selected
    programmer, [typeof ... === 'string'] for the id) and is then read
    at the type the interface [Data] declares, or it fails that test. *)
Inductive Field (A : Type) : Type :=
  | Undefined
  | Holds (a : A)
  | Mistyped.
Arguments Undefined {A}.
Arguments Holds {A} a.
Arguments Mistyped {A}.

Inductive Stored : Type :=
  | NotAnObject
  | Object (configOptions : Field (list ConfigOption.t))
           (programmers : Field (list Programmer.t))
           (selectedProgrammer : Field Programmer.t)
           (defaultProgrammerId : Field string).

Definition isHeld {A} (f : Field A) : bool :=
  match f with Holds _ => true | _ => false end.
Definition isUndefined {A} (f : Field A) : bool :=
  match f with Undefined => true | _ => false end.

(** [BoardsDataStore.Data.is(arg)]; [arg] is [None] for [undefined]. *)
Definition Data_is (arg : option Stored) : bool :=
  match arg with
  | Some (Object configOptions programmers selectedProgrammer defaultProgrammerId) =>
      isHeld configOptions &&
      isHeld programmers &&
      (isUndefined selectedProgrammer || isHeld selectedProgrammer) &&
      (isUndefined defaultProgrammerId || isHeld defaultProgrammerId)
  | _ => false
  end.

Definition fieldOr {A} (d : A) (f : Field A) : A :=
  match f with Holds a => a | _ => d end.
Definition fieldOpt {A} (f : Field A) : option A :=
  match f with Holds a => Some a | _ => None end.
Definition optField {A} (o : option A) : Field A :=
  match o with Some a => Holds a | None => Undefined end.

(** Reading a stored value at type [Data], as the code does once
    [Data.is] has narrowed it (a cast: meaningful under [Data_is]). *)
Definition asData (arg : option Stored) : Data.t :=
  match arg with
  | Some (Object configOptions programmers selectedProgrammer defaultProgrammerId) =>
      {| Data.configOptions := fieldOr [] configOptions;
         Data.programmers := fieldOr [] programmers;
         Data.selectedProgrammer := fieldOpt selectedProgrammer;
         Data.defaultProgrammerId := fieldOpt defaultProgrammerId |}
  | _ => Data.EMPTY
  end.

(** A [Data] object as it is handed to [storageService.setData]. *)
Definition toStored (d : Data.t) : Stored :=
  Object (Holds (Data.configOptions d)) (Holds (Data.programmers d))
         (optField (Data.selectedProgrammer d))
         (optField (Data.defaultProgrammerId d)).

(** [isEmptyData] *)
Definition isEmptyData (data : Data.t) : bool :=
  bool_decide (length (Data.configOptions data) = 0) &&
  bool_decide (length (Data.programmers data) = 0) &&
  match Data.selectedProgrammer data with None => true | Some _ => false end &&
  falsy (Data.defaultProgrammerId data).

(** The second argument of [findDefaultProgrammer]:
    [string | undefined | BoardsDataStore.Data]. *)
Inductive DefaultProgrammerArg : Type :=
  | ArgUndefined
  | ArgString (s : string)
  | ArgData (d : Data.t).

Definition ofId (o : option string) : DefaultProgrammerArg :=
  match o with Some s => ArgString s | None => ArgUndefined end.

(** [!defaultProgrammerId] on that union: an object is never falsy. *)
Definition argFalsy (arg : DefaultProgrammerArg) : bool :=
  match arg with
  | ArgUndefined => true
  | ArgString s => bool_decide (s = "")
  | ArgData _ => false
  end.

(** [findDefaultProgrammer] *)
Definition findDefaultProgrammer
    (programmers : list Programmer.t)
    (defaultProgrammerId : DefaultProgrammerArg) : option Programmer.t :=
  if argFalsy defaultProgrammerId then None
  else
    let id :=
      match defaultProgrammerId with
      | ArgString s => Some s
      | ArgData d => Data.defaultProgrammerId d
      | ArgUndefined => None
      end in
    List.find (fun p => bool_decide (Some (Programmer.id p) = id)) programmers.

(** [createDataStoreEntry] *)
Definition createDataStoreEntry (details : BoardDetails.t) : Data.t :=
  let configOptions := BoardDetails.configOptions details in
  let programmers := BoardDetails.programmers details in
  let defaultProgrammerId := BoardDetails.defaultProgrammerId details in
  let selectedProgrammer :=
    findDefaultProgrammer programmers (ofId defaultProgrammerId) in
  {| Data.configOptions := configOptions;
     Data.programmers := programmers;
     Data.selectedProgrammer := selectedProgrammer;
     Data.defaultProgrammerId := truthy defaultProgrammerId |}.

(** [BoardsDataStoreChange] and [BoardsDataStoreChangeEvent] *)
Record BoardsDataStoreChange : Type :=
  mkChange { fqbn : string; data : Data.t }.
Record BoardsDataStoreChangeEvent : Type :=
  mkEvent { changes : list BoardsDataStoreChange }.

Inductive LogEntry : Type :=
  | Warn (message : string)
  | Error (message : string).

(** The state the class works on: the storage service, the events fired
    on [onDidChangeEmitter], the requests sent to the boards service,
    and the logger's output (all in order of occurrence). *)
Record Store : Type := mkStore {
  storage : gmap string Stored;
  fired : list BoardsDataStoreChangeEvent;
  requested : list string;
  logged : list LogEntry;
}.

(** The state monad of the class's methods. *)
Definition M (A : Type) : Type := Store -> A * Store.
Definition ret {A} (a : A) : M A := fun st => (a, st).
Definition bind {A B} (m : M A) (k : A -> M B) : M B :=
  fun st => let '(a, st') := m st in k a st'.

Declare Scope store_scope.
Delimit Scope store_scope with store.
Notation "x <- m ;; k" := (bind m (fun x => k))
  (at level 100, m at next level, right associativity) : store_scope.
Notation "m ;;; k" := (bind m (fun _ => k))
  (at level 100, right associativity) : store_scope.
Local Open Scope store_scope.

(** [storageService.getData(key, undefined)] *)
Definition storageService_getData (key : string) : M (option Stored) :=
  fun st => (storage st !! key, st).

(** [storageService.setData(key, data)] *)
Definition storageService_setData (key : string) (data : Data.t) : M unit :=
  fun st => (tt, {| storage := <[key := toStored data]> (storage st);
                    fired := fired st;
                    requested := requested st;
                    logged := logged st |}).

Definition logger (entry : LogEntry) : M unit :=
  fun st => (tt, {| storage := storage st; fired := fired st;
                    requested := requested st;
                    logged := logged st ++ [entry] |}).

(** [getStorageKey] *)
Definition getStorageKey (fqbn : string) : string :=
  ".arduinoIDE-configOptions-" +:+ fqbn.

(** [setData] *)
Definition setData (change : BoardsDataStoreChange) : M unit :=
  let key := getStorageKey (fqbn change) in
  storageService_setData key (data change).

(** [fireChanged] *)
Definition fireChanged (changes : list BoardsDataStoreChange) : M unit :=
  fun st => (tt, {| storage := storage st;
                    fired := fired st ++ [{| changes := changes |}];
                    requested := requested st;
                    logged := logged st |}).

Section Methods.
Context {Err : Type} `{!BoardsService Err} `{!ProtocolHelpers}.

(** [this.boardsService.getBoardDetails({ fqbn })], awaited. *)
Definition boardsService_getBoardDetails (fqbn : string)
  : M (Err + option BoardDetails.t) :=
  fun st =>
    (match getBoardDetails fqbn with
     | Returns details => inr details
     | Throws e | Rejects e => inl e
     end,
     {| storage := storage st; fired := fired st;
        requested := requested st ++ [fqbn];
        logged := logged st |}).

(** [loadBoardDetails] *)
Definition loadBoardDetails (fqbn : string) : M (option BoardDetails.t) :=
  r <- boardsService_getBoardDetails fqbn ;;
  match r with
  | inr details => ret details
  | inl err =>
      (match errorMessage err with
       | Some message =>
           if includes "loading board data" message &&
              includes "is not installed" message
           then logger (Warn ("The boards package is not installed for board with FQBN: " +:+ fqbn))
           else logger (Error ("An unexpected error occurred while retrieving the board details for " +:+ fqbn +:+ "."))
       | None =>
           logger (Error ("An unexpected error occurred while retrieving the board details for " +:+ fqbn +:+ "."))
       end) ;;;
      ret None
  end.

(** [getData] *)
Definition getData (fqbn : option string) : M Data.t :=
  match truthy fqbn with
  | None => ret Data.EMPTY
  | Some fqbn =>
      let key := getStorageKey fqbn in
      storedData <- storageService_getData key ;;
      if Data_is storedData then ret (asData storedData)
      else
        boardDetails <- loadBoardDetails fqbn ;;
        match boardDetails with
        | None => ret Data.EMPTY
        | Some boardDetails =>
            let data := createDataStoreEntry boardDetails in
            storageService_setData key data ;;;
            ret data
        end
  end.

(** [appendConfigToFqbn] *)
Definition appendConfigToFqbn (fqbn : option string) : M (option string) :=
  match truthy fqbn with
  | None => ret None
  | Some fqbn =>
      d <- getData (Some fqbn) ;;
      ret (Some (ConfigOption_decorate fqbn (Data.configOptions d)))
  end.

(** [selectProgrammer] *)
Definition selectProgrammer (fqbn : string) (selectedProgrammer : Programmer.t)
  : M bool :=
  d <- getData (Some fqbn) ;;
  let storedData := deepClone d in
  let programmers := Data.programmers storedData in
  match List.find (fun p => Programmer_equals selectedProgrammer p) programmers with
  | None => ret false
  | Some _ =>
      let data :=
        {| Data.configOptions := Data.configOptions storedData;
           Data.programmers := Data.programmers storedData;
           Data.selectedProgrammer := Some selectedProgrammer;
           Data.defaultProgrammerId := Data.defaultProgrammerId storedData |} in
      setData {| fqbn := fqbn; data := data |} ;;;
      fireChanged [{| fqbn := fqbn; data := data |}] ;;;
      ret true
  end.

(** The loop of [selectConfigOption] over [configOption.values]: the
    values after the assignments to [selected], and [updated]. *)
Fixpoint markSelected (values : list ConfigValue.t) (selectedValue : string)
    (updated : bool) : list ConfigValue.t * bool :=
  match values with
  | [] => ([], updated)
  | value :: rest =>
      if bool_decide (ConfigValue.value value = selectedValue) then
        let '(rest', updated') := markSelected rest selectedValue true in
        ({| ConfigValue.label := ConfigValue.label value;
            ConfigValue.value := ConfigValue.value value;
            ConfigValue.selected := true |} :: rest', updated')
      else
        let '(rest', updated') := markSelected rest selectedValue updated in
        ({| ConfigValue.label := ConfigValue.label value;
            ConfigValue.value := ConfigValue.value value;
            ConfigValue.selected := false |} :: rest', updated')
  end.

(** [configOptions.find((c) => c.option === option)], together with
    the position of the element found: the loop writes through the
    reference [find] returns, that is into this position of the
    cloned array. *)
Fixpoint findOption (configOptions : list ConfigOption.t) (option' : string)
    (index : nat) : option (nat * ConfigOption.t) :=
  match configOptions with
  | [] => None
  | c :: rest =>
      if bool_decide (ConfigOption.option c = option') then Some (index, c)
      else findOption rest option' (S index)
  end.

(** [selectConfigOption] *)
Definition selectConfigOption (fqbn option' selectedValue : string) : M bool :=
  d <- getData (Some fqbn) ;;
  let data := deepClone d in
  let configOptions := Data.configOptions data in
  match findOption configOptions option' 0 with
  | None => ret false
  | Some (index, configOption) =>
      let '(values, updated) :=
        markSelected (ConfigOption.values configOption) selectedValue false in
      if negb updated then ret false
      else
        let data :=
          {| Data.configOptions :=
               <[index := {| ConfigOption.option := ConfigOption.option configOption;
                             ConfigOption.label := ConfigOption.label configOption;
                             ConfigOption.values := values |}]> configOptions;
             Data.programmers := Data.programmers data;
             Data.selectedProgrammer := Data.selectedProgrammer data;
             Data.defaultProgrammerId := Data.defaultProgrammerId data |} in
        setData {| fqbn := fqbn; data := data |} ;;;
        fireChanged [{| fqbn := fqbn; data := data |}] ;;;
        ret true
  end.
End Methods.

End BoardsDataStore.

(** ** contributions/debug.ts *)

Module Debug.

(** Modelled from the spec: [CurrentSketch] of
    [sketches-service-client-impl], which is not among the sources.  The
    current sketch is a sketch or the marker ['invalid'] (the tests
    pass both, and [undefined]). *)
Inductive CurrentSketch : Type :=
  | Invalid
  | Opened (sketch : Sketch.t).

(** Modelled from the spec: the type guard [CurrentSketch.isValid],
    returning the sketch it narrows to; a sketch that is undefined or
    not a valid sketch does not pass. *)
Definition CurrentSketch_isValid (arg : option CurrentSketch) : option Sketch.t :=
  match arg with
  | Some (Opened sketch) => Some sketch
  | _ => None
  end.

(** [nls.localize(key, defaultValue, ...args)] and the two messages
    imported from [common/nls]. *)
Class Nls : Type := {
  localize : string -> string -> list string -> string;
  noSketchOpened : string;
  noBoardSelected : string;
}.

Section Messages.
Context `{!Nls}.

(** [sketchIsNotCompiled] *)
Definition sketchIsNotCompiled (sketchName : string) : string :=
  localize "arduino/debug/sketchIsNotCompiled"
           "Sketch '{0}' must be verified before starting a debug session"
           [sketchName].

(** [noPlatformInstalledFor] *)
Definition noPlatformInstalledFor (boardName : string) : string :=
  localize "arduino/debug/noPlatformInstalledFor"
           "Platform is not installed for '{0}'"
           [boardName].

(** [debuggingNotSupported] *)
Definition debuggingNotSupported (boardName : string) : string :=
  localize "arduino/debug/debuggingNotSupported"
           "Debugging is not supported by '{0}'"
           [boardName].

(** [noProgrammerSelectedFor] *)
Definition noProgrammerSelectedFor (boardName : string) : string :=
  localize "arduino/debug/noProgrammerSelectedFor"
           "No programmer selected for '{0}'"
           [boardName].
End Messages.

(** The template literal of the fifth check. *)
Definition failedToAppend (fqbn : string) : string :=
  "Failed to append boards config to the FQBN. Original FQBN was: " +:+ fqbn.

(** A value that [isDebugEnabled] is rejected with: an [Error] it
    created, a value that came out of a callback, or, when several of
    the promises given to [Promise.all] reject, the reason of the one
    that settles first (one of [es], listed in argument order). *)
Inductive Thrown (Err : Type) : Type :=
  | NewError (message : string)
  | Raised (e : Err)
  | FirstRejected (es : list Err).
Arguments NewError {Err} message.
Arguments Raised {Err} e.
Arguments FirstRejected {Err} es.

(** The five callbacks of [isDebugEnabled]. *)
Record Callbacks (Err : Type) : Type := mkCallbacks {
  getDetails : string -> Outcome Err (option BoardDetails.t);
  getData : string -> Outcome Err BoardsDataStore.Data.t;
  appendConfigToFqbn : string -> Outcome Err (option string);
  checkDebugEnabled : CheckDebugEnabledParams.t -> Outcome Err unit;
  isSketchNotVerifiedError : Thrown Err -> Sketch.t -> Outcome Err bool;
}.
Arguments mkCallbacks {Err}.
Arguments getDetails {Err}.
Arguments getData {Err}.
Arguments appendConfigToFqbn {Err}.
Arguments checkDebugEnabled {Err}.
Arguments isSketchNotVerifiedError {Err}.

(** One invocation of a callback, with its arguments. *)
Inductive Call (Err : Type) : Type :=
  | CallGetDetails (fqbn : string)
  | CallGetData (fqbn : string)
  | CallAppendConfigToFqbn (fqbn : string)
  | CallCheckDebugEnabled (params : CheckDebugEnabledParams.t)
  | CallIsSketchNotVerifiedError (err : Thrown Err) (sketchRef : Sketch.t).
Arguments CallGetDetails {Err}.
Arguments CallGetData {Err}.
Arguments CallAppendConfigToFqbn {Err}.
Arguments CallCheckDebugEnabled {Err}.
Arguments CallIsSketchNotVerifiedError {Err}.

(** How a piece of the [async] function body ends. *)
Inductive Completion (Err A : Type) : Type :=
  | Normal (a : A)
  | Abrupt (t : Thrown Err).
Arguments Normal {Err A} a.
Arguments Abrupt {Err A} t.

(** A promise once it has settled. *)
Inductive Promise (Err A : Type) : Type :=
  | Fulfilled (a : A)
  | Rejected (t : Thrown Err).
Arguments Fulfilled {Err A} a.
Arguments Rejected {Err A} t.

(** The body of an [async] function: it extends the trace of callback
    invocations and completes normally or abruptly. *)
Definition Async (Err A : Type) : Type :=
  list (Call Err) -> Completion Err A * list (Call Err).

Section Async.
Context {Err : Type}.

Definition ret {A} (a : A) : Async Err A := fun tr => (Normal a, tr).

Definition throw {A} (t : Thrown Err) : Async Err A := fun tr => (Abrupt t, tr).

Definition bind {A B} (m : Async Err A) (k : A -> Async Err B) : Async Err B :=
  fun tr =>
    match m tr with
    | (Normal a, tr') => k a tr'
    | (Abrupt t, tr') => (Abrupt t, tr')
    end.

(** [try { body } catch (err) { handler }] *)
Definition tryCatch {A} (body : Async Err A) (handler : Thrown Err -> Async Err A)
  : Async Err A :=
  fun tr =>
    match body tr with
    | (Normal a, tr') => (Normal a, tr')
    | (Abrupt t, tr') => handler t tr'
    end.

(** Evaluating the call expression [callback(args)]: the invocation
    is recorded; a synchronous throw ends the enclosing expression,
    otherwise the value is a promise. *)
Definition invoke {A} (call : Call Err) (outcome : Outcome Err A)
  : Async Err (Promise Err A) :=
  fun tr =>
    (match outcome with
     | Returns a => Normal (Fulfilled a)
     | Rejects e => Normal (Rejected (Raised e))
     | Throws e => Abrupt (Raised e)
     end, (tr ++ [call])%list).

(** [await promise] *)
Definition await {A} (promise : Promise Err A) : Async Err A :=
  match promise with
  | Fulfilled a => ret a
  | Rejected t => throw t
  end.

Definition reasons {A} (promise : Promise Err A) : list Err :=
  match promise with
  | Rejected (Raised e) => [e]
  | Rejected (FirstRejected es) => es
  | _ => []
  end.

(** [Promise.all([p1, p2, p3])]: fulfilled with the three values when
    all three fulfil, rejected as soon as one of them rejects. *)
Definition Promise_all {A B C}
    (p1 : Promise Err A) (p2 : Promise Err B) (p3 : Promise Err C)
  : Promise Err (A * B * C) :=
  match p1, p2, p3 with
  | Fulfilled a, Fulfilled b, Fulfilled c => Fulfilled (a, b, c)
  | _, _, _ =>
      match reasons p1 ++ reasons p2 ++ reasons p3 with
      | [e] => Rejected (Raised e)
      | es => Rejected (FirstRejected es)
      end
  end.
End Async.

Declare Scope async_scope.
Delimit Scope async_scope with async.
Notation "x <- m ;; k" := (bind m (fun x => k))
  (at level 100, m at next level, right associativity) : async_scope.
Local Open Scope async_scope.

Section IsDebugEnabled.
Context {Err : Type} `{!Nls}.

(** [isDebugEnabled] *)
Definition isDebugEnabled
    (sketch : option CurrentSketch)
    (board : option BoardIdentifier.t)
    (cb : Callbacks Err) : Async Err unit :=
  match CurrentSketch_isValid sketch with
  | None => throw (NewError noSketchOpened)
  | Some sketch =>
  match board with
  | None => throw (NewError noBoardSelected)
  | Some board =>
  match truthy (BoardIdentifier.fqbn board) with
  | None => throw (NewError (noPlatformInstalledFor (BoardIdentifier.name board)))
  | Some fqbn =>
      p1 <- invoke (CallGetDetails fqbn) (getDetails cb fqbn) ;;
      p2 <- invoke (CallGetData fqbn) (getData cb fqbn) ;;
      p3 <- invoke (CallAppendConfigToFqbn fqbn) (appendConfigToFqbn cb fqbn) ;;
      fetched <- await (Promise_all p1 p2 p3) ;;
      let '(details, data, fqbnWithConfig) := fetched in
      match details with
      | None => throw (NewError (noPlatformInstalledFor (BoardIdentifier.name board)))
      | Some _ =>
      match truthy fqbnWithConfig with
      | None => throw (NewError (failedToAppend fqbn))
      | Some fqbnWithConfig =>
      match BoardsDataStore.Data.selectedProgrammer data with
      | None => throw (NewError (noProgrammerSelectedFor (BoardIdentifier.name board)))
      | Some selectedProgrammer =>
          let params :=
            {| CheckDebugEnabledParams.fqbn := fqbnWithConfig;
               CheckDebugEnabledParams.programmer := Programmer.id selectedProgrammer;
               CheckDebugEnabledParams.sketchUri := Sketch.uri sketch |} in
          tryCatch
            (p <- invoke (CallCheckDebugEnabled params) (checkDebugEnabled cb params) ;;
             await p)
            (fun err =>
               p <- invoke (CallIsSketchNotVerifiedError err sketch)
                           (isSketchNotVerifiedError cb err sketch) ;;
               sketchNotVerified <- await p ;;
               if (sketchNotVerified : bool)
               then throw (NewError (sketchIsNotCompiled (Sketch.name sketch)))
               else throw (NewError (debuggingNotSupported (BoardIdentifier.name board))))
      end end end
  end end end.

(** The promise [isDebugEnabled(...)] returns and the callbacks it
    has invoked, in order. *)
Definition run (sketch : option CurrentSketch) (board : option BoardIdentifier.t)
    (cb : Callbacks Err) : Completion Err unit * list (Call Err) :=
  isDebugEnabled sketch board cb [].
End IsDebugEnabled.

(** [COMPILE_FOR_DEBUG_KEY] *)
Definition COMPILE_FOR_DEBUG_KEY : string := "arduino-compile-for-debug".

(** What the two members about compile-for-debug touch: the window's
    local storage and the menu manager (the number of its updates). *)
Record Window : Type := mkWindow {
  localStorage : gmap string string;
  menuUpdates : nat;
}.

(** [String(b)] for a boolean. *)
Definition String_of_bool (b : bool) : string :=
  if b then "true" else "false".

(** [get compileForDebug] *)
Definition compileForDebug (w : Window) : bool :=
  let value := localStorage w !! COMPILE_FOR_DEBUG_KEY in
  bool_decide (value = Some "true").

(** [toggleCompileForDebug] *)
Definition toggleCompileForDebug (w : Window) : Window :=
  let oldState := compileForDebug w in
  let newState := negb oldState in
  {| localStorage := <[COMPILE_FOR_DEBUG_KEY := String_of_bool newState]> (localStorage w);
     menuUpdates := S (menuUpdates w) |}.

End Debug.

(** ** The data of the test suite ([debug.test.ts]) and instances of the
    parameters, used in the examples below *)

Module Fixtures.
Import BoardsDataStore.

Definition fqbn : string := "a:b:c".
Definition name : string := "ABC".
Definition board : BoardIdentifier.t :=
  {| BoardIdentifier.name := name; BoardIdentifier.fqbn := Some fqbn |}.
Definition sketch : Sketch.t :=
  {| Sketch.name := "My_Sketch";
     Sketch.uri := "file:///path/to/mySketch/";
     Sketch.mainFileUri := "file:///path/to/mySketch/mySketch.in" |}.
Definition p1 : Programmer.t :=
  {| Programmer.id := "p1"; Programmer.name := "P1";
     Programmer.platform := "The platform" |}.
Definition p2 : Programmer.t :=
  {| Programmer.id := "p2"; Programmer.name := "P2";
     Programmer.platform := "The platform" |}.
Definition data : Data.t :=
  {| Data.configOptions := [];
     Data.defaultProgrammerId := Some "p1";
     Data.programmers := [p1; p2];
     Data.selectedProgrammer := Some p1 |}.
Definition boardDetails : BoardDetails.t :=
  {| BoardDetails.buildProperties := [];
     BoardDetails.configOptions := [];
     BoardDetails.defaultProgrammerId := Some "p1";
     BoardDetails.programmers := [p1; p2];
     BoardDetails.fqbn := fqbn;
     BoardDetails.PID := "0";
     BoardDetails.VID := "0" |}.

(** A programmer outside [programmers]. *)
Definition p3 : Programmer.t :=
  {| Programmer.id := "p3"; Programmer.name := "P3";
     Programmer.platform := "The platform" |}.

(** Two config options, the first with two values. *)
Definition cpu : ConfigOption.t :=
  {| ConfigOption.option := "cpu"; ConfigOption.label := "Processor";
     ConfigOption.values :=
       [ {| ConfigValue.label := "ATmega328P"; ConfigValue.value := "atmega328";
            ConfigValue.selected := true |};
         {| ConfigValue.label := "ATmega168"; ConfigValue.value := "atmega168";
            ConfigValue.selected := false |} ] |}.
Definition usb : ConfigOption.t :=
  {| ConfigOption.option := "usb"; ConfigOption.label := "USB";
     ConfigOption.values :=
       [ {| ConfigValue.label := "Serial"; ConfigValue.value := "serial";
            ConfigValue.selected := true |} ] |}.
Definition configured : Data.t :=
  {| Data.configOptions := [cpu; usb];
     Data.defaultProgrammerId := Some "p1";
     Data.programmers := [p1; p2];
     Data.selectedProgrammer := Some p1 |}.

(** A first option named like [cpu] that offers no value. *)
Definition cpuEmpty : ConfigOption.t :=
  {| ConfigOption.option := "cpu"; ConfigOption.label := "Processor (legacy)";
     ConfigOption.values := [] |}.
Definition shadowed : Data.t :=
  {| Data.configOptions := [cpuEmpty; cpu];
     Data.defaultProgrammerId := Some "p1";
     Data.programmers := [p1; p2];
     Data.selectedProgrammer := Some p1 |}.

(** Board details whose default programmer id is the empty string, with
    a programmer of that id. *)
Definition unnamed : Programmer.t :=
  {| Programmer.id := ""; Programmer.name := "Unnamed";
     Programmer.platform := "The platform" |}.
Definition detailsEmptyDefault : BoardDetails.t :=
  {| BoardDetails.buildProperties := [];
     BoardDetails.configOptions := [];
     BoardDetails.defaultProgrammerId := Some "";
     BoardDetails.programmers := [unnamed; p1];
     BoardDetails.fqbn := fqbn;
     BoardDetails.PID := "0";
     BoardDetails.VID := "0" |}.

(** [template] with the placeholder [{0}] replaced by [arg]. *)
Fixpoint substitute (skip : nat) (template arg : string) : string :=
  match template with
  | EmptyString => EmptyString
  | String c rest =>
      match skip with
      | S k => substitute k rest arg
      | O =>
          if String.prefix "{0}" template
          then arg +:+ substitute 2 rest arg
          else String c (substitute 0 rest arg)
      end
  end.

(** The messages of the default (English) locale. *)
Instance english : Debug.Nls := {|
  Debug.localize _ defaultValue args :=
    match args with
    | arg :: _ => substitute 0 defaultValue arg
    | [] => defaultValue
    end;
  Debug.noSketchOpened := "No sketch opened";
  Debug.noBoardSelected := "No board selected";
|}.

(** Protocol helpers for the examples: programmers are compared field
    by field, and an FQBN is decorated with the selected value of each
    config option. *)
Definition selectedOf (c : ConfigOption.t) : list string :=
  match List.find ConfigValue.selected (ConfigOption.values c) with
  | Some v => [ConfigOption.option c +:+ "=" +:+ ConfigValue.value v]
  | None => []
  end.

Instance helpers : ProtocolHelpers := {|
  Programmer_equals left right :=
    bool_decide (Programmer.id left = Programmer.id right) &&
    bool_decide (Programmer.name left = Programmer.name right) &&
    bool_decide (Programmer.platform left = Programmer.platform right);
  ConfigOption_decorate fqbn configOptions :=
    match configOptions with
    | [] => fqbn
    | _ => fqbn +:+ ":" +:+ String.concat "," (flat_map selectedOf configOptions)
    end;
|}.

(** A boards service that knows the board [a:b:c] only; caught values
    are [Error]s, given by their message. *)
Instance service : BoardsService string := {|
  getBoardDetails fqbn' :=
    if bool_decide (fqbn' = fqbn) then Returns (Some boardDetails)
    else Rejects ("Error loading board data: platform " +:+ fqbn' +:+ " is not installed");
  errorMessage e := Some e;
|}.

(** The storage before anything is stored, and with an entry for the
    board. *)
Definition fresh : Store :=
  {| storage := ∅; fired := []; requested := []; logged := [] |}.
Definition warm (d : Data.t) : Store :=
  {| storage := {[ getStorageKey fqbn := toStored d ]};
     fired := []; requested := []; logged := [] |}.
(** A storage whose value for the board is an object that [Data.is]
    rejects: it has config options and no [programmers] property. *)
Definition stale : Store :=
  {| storage :=
       {[ getStorageKey fqbn := Object (Holds [cpu; usb]) Undefined Undefined Undefined ]};
     fired := []; requested := []; logged := [] |}.
(** A storage with an entry under the key of the empty FQBN. *)
Definition keyless (d : Data.t) : Store :=
  {| storage := {[ ".arduinoIDE-configOptions-" := toStored d ]};
     fired := []; requested := []; logged := [] |}.

(** The callbacks of the test suite. *)
Definition unexpectedCall {A} : Outcome string A := Throws "unexpected call".
Definition failing : Debug.Callbacks string :=
  Debug.mkCallbacks (fun _ => unexpectedCall) (fun _ => unexpectedCall)
    (fun _ => unexpectedCall) (fun _ => unexpectedCall)
    (fun _ _ => unexpectedCall).
Definition copyData : Data.t :=
  {| Data.configOptions := [];
     Data.defaultProgrammerId := Some "p1";
     Data.programmers := [p1; p2];
     Data.selectedProgrammer := None |}.
Definition noDetails : Debug.Callbacks string :=
  Debug.mkCallbacks (fun _ => Returns None) (fun _ => Returns data)
    (fun fqbn => Returns (Some fqbn)) (fun _ => unexpectedCall)
    (fun _ _ => unexpectedCall).
Definition noProgrammer : Debug.Callbacks string :=
  Debug.mkCallbacks (fun _ => Returns (Some boardDetails)) (fun _ => Returns copyData)
    (fun fqbn => Returns (Some fqbn)) (fun _ => unexpectedCall)
    (fun _ _ => unexpectedCall).
Definition notVerified : Debug.Callbacks string :=
  Debug.mkCallbacks (fun _ => Returns (Some boardDetails)) (fun _ => Returns data)
    (fun fqbn => Returns (Some fqbn)) (fun _ => Throws "sketch is not verifier")
    (fun reason _ =>
       Returns match reason with
               | Debug.Raised e => bool_decide (e = "sketch is not verifier")
               | _ => false
               end).
Definition noConfig : Debug.Callbacks string :=
  Debug.mkCallbacks (fun _ => Returns (Some boardDetails)) (fun _ => Returns data)
    (fun _ => Returns None) (fun _ => unexpectedCall)
    (fun _ _ => unexpectedCall).
Definition unsupported : Debug.Callbacks string :=
  Debug.mkCallbacks (fun _ => Returns (Some boardDetails)) (fun _ => Returns data)
    (fun fqbn => Returns (Some fqbn)) (fun _ => Throws "unhandled error")
    (fun _ _ => Returns false).

(** A selected board whose FQBN is the empty string, and callbacks
    that answer for every FQBN. *)
Definition blank : BoardIdentifier.t :=
  {| BoardIdentifier.name := name; BoardIdentifier.fqbn := Some "" |}.
Definition answering : Debug.Callbacks string :=
  Debug.mkCallbacks (fun _ => Returns (Some boardDetails)) (fun _ => Returns data)
    (fun _ => Returns (Some "a:b:c")) (fun _ => Returns tt)
    (fun _ _ => unexpectedCall).
Definition supported : Debug.Callbacks string :=
  Debug.mkCallbacks (fun _ => Returns (Some boardDetails)) (fun _ => Returns data)
    (fun fqbn => Returns (Some fqbn)) (fun _ => Returns tt)
    (fun _ _ => unexpectedCall).
End Fixtures.

(** ** The wording of the specification, as definitions to compare the
    code with *)

Module Spec.
Import BoardsDataStore.

(** "Exactly the matching values of that option have selected=true and
    every other value of that option has selected=false." *)
Definition selectOnly (selectedValue : string) (values : list ConfigValue.t)
  : list ConfigValue.t :=
  map (fun v => {| ConfigValue.label := ConfigValue.label v;
                   ConfigValue.value := ConfigValue.value v;
                   ConfigValue.selected :=
                     bool_decide (ConfigValue.value v = selectedValue) |})
      values.

(** "One of that option's values equals the selected value." *)
Definition offers (selectedValue : string) (c : ConfigOption.t) : bool :=
  existsb (fun v => bool_decide (ConfigValue.value v = selectedValue))
          (ConfigOption.values c).

(** The data entry with another selected programmer, and with the
    config option at a position replaced. *)
Definition withProgrammer (d : Data.t) (p : Programmer.t) : Data.t :=
  {| Data.configOptions := Data.configOptions d;
     Data.programmers := Data.programmers d;
     Data.selectedProgrammer := Some p;
     Data.defaultProgrammerId := Data.defaultProgrammerId d |}.

Definition withValues (c : ConfigOption.t) (values : list ConfigValue.t)
  : ConfigOption.t :=
  {| ConfigOption.option := ConfigOption.option c;
     ConfigOption.label := ConfigOption.label c;
     ConfigOption.values := values |}.

Definition withOption (d : Data.t) (index : nat) (c : ConfigOption.t) : Data.t :=
  {| Data.configOptions := <[index := c]> (Data.configOptions d);
     Data.programmers := Data.programmers d;
     Data.selectedProgrammer := Data.selectedProgrammer d;
     Data.defaultProgrammerId := Data.defaultProgrammerId d |}.

(** "Persists [data] for [fqbn], also firing a change event for that
    fqbn": one write under the key of [fqbn], one event with the one
    change. *)
Definition persisted (fqbn : string) (data : Data.t) (st : Store) : Store :=
  {| storage := <[getStorageKey fqbn := toStored data]> (storage st);
     fired := fired st ++ [{| changes := [{| fqbn := fqbn; data := data |}] |}];
     requested := requested st;
     logged := logged st |}.

(** *** The validation pipeline of [isDebugEnabled] *)

(** The checks, "in a fixed order: current-sketch validity, board
    selection, presence of the board's FQBN, then (after the combined
    fetches) presence of board details, presence of the config-decorated
    FQBN, presence of a selected programmer, and finally the CLI
    debug-enabled check". *)
Inductive Check : Type :=
  | SketchIsValid
  | BoardIsSelected
  | FqbnIsPresent
  | DetailsArePresent
  | DecoratedFqbnIsPresent
  | ProgrammerIsSelected
  | DebugIsEnabled.

Definition checksInOrder : list Check :=
  [SketchIsValid; BoardIsSelected; FqbnIsPresent; DetailsArePresent;
   DecoratedFqbnIsPresent; ProgrammerIsSelected; DebugIsEnabled].

(** The stage of a check: before the combined fetches, after them, and
    the CLI check. *)
Definition stage (c : Check) : nat :=
  match c with
  | SketchIsValid | BoardIsSelected | FqbnIsPresent => 0
  | DetailsArePresent | DecoratedFqbnIsPresent | ProgrammerIsSelected => 1
  | DebugIsEnabled => 2
  end.

(** The stage a callback belongs to. *)
Definition callStage {Err} (call : Debug.Call Err) : nat :=
  match call with
  | Debug.CallGetDetails _ | Debug.CallGetData _ | Debug.CallAppendConfigToFqbn _ => 1
  | Debug.CallCheckDebugEnabled _ | Debug.CallIsSketchNotVerifiedError _ _ => 2
  end.

Section Checks.
Context {Err : Type} `{!Debug.Nls}.
Variables (sketch : option Debug.CurrentSketch)
          (board : option BoardIdentifier.t)
          (cb : Debug.Callbacks Err).

(** The FQBN of the selected board, when it is present. *)
Definition presentFqbn : option string :=
  match board with
  | Some b => truthy (BoardIdentifier.fqbn b)
  | None => None
  end.

(** The parameters of the CLI check, when everything they are made
    of is there. *)
Definition cliParams : option CheckDebugEnabledParams.t :=
  match Debug.CurrentSketch_isValid sketch, presentFqbn with
  | Some s, Some f =>
      match Debug.appendConfigToFqbn cb f, Debug.getData cb f with
      | Returns fq, Returns d =>
          match truthy fq, Data.selectedProgrammer d with
          | Some fq, Some p =>
              Some {| CheckDebugEnabledParams.fqbn := fq;
                      CheckDebugEnabledParams.programmer := Programmer.id p;
                      CheckDebugEnabledParams.sketchUri := Sketch.uri s |}
          | _, _ => None
          end
      | _, _ => None
      end
  | _, _ => None
  end.

(** Whether a check passes, each one on its own. *)
Definition holds (c : Check) : bool :=
  match c with
  | SketchIsValid =>
      match Debug.CurrentSketch_isValid sketch with Some _ => true | None => false end
  | BoardIsSelected =>
      match board with Some _ => true | None => false end
  | FqbnIsPresent =>
      match presentFqbn with Some _ => true | None => false end
  | DetailsArePresent =>
      match presentFqbn with
      | Some f =>
          match Debug.getDetails cb f with Returns (Some _) => true | _ => false end
      | None => false
      end
  | DecoratedFqbnIsPresent =>
      match presentFqbn with
      | Some f =>
          match Debug.appendConfigToFqbn cb f with
          | Returns fq => match truthy fq with Some _ => true | None => false end
          | _ => false
          end
      | None => false
      end
  | ProgrammerIsSelected =>
      match presentFqbn with
      | Some f =>
          match Debug.getData cb f with
          | Returns d =>
              match Data.selectedProgrammer d with Some _ => true | None => false end
          | _ => false
          end
      | None => false
      end
  | DebugIsEnabled =>
      match cliParams with
      | Some params =>
          match Debug.checkDebugEnabled cb params with Returns _ => true | _ => false end
      | None => false
      end
  end.

(** The combined fetches complete: each of the three callbacks
    returns (a value, or a promise that fulfils). *)
Definition fetchesSettle : bool :=
  match presentFqbn with
  | Some f =>
      match Debug.getDetails cb f, Debug.getData cb f, Debug.appendConfigToFqbn cb f with
      | Returns _, Returns _, Returns _ => true
      | _, _, _ => false
      end
  | None => false
  end.

Definition boardName : string :=
  match board with Some b => BoardIdentifier.name b | None => "" end.

(** The message of the [Error] a check rejects with; the message of
    the CLI check depends on how the error is classified. *)
Definition message (c : Check) : option string :=
  match c with
  | SketchIsValid => Some Debug.noSketchOpened
  | BoardIsSelected => Some Debug.noBoardSelected
  | FqbnIsPresent | DetailsArePresent =>
      Some (Debug.noPlatformInstalledFor boardName)
  | DecoratedFqbnIsPresent =>
      Some (Debug.failedToAppend (default "" presentFqbn))
  | ProgrammerIsSelected => Some (Debug.noProgrammerSelectedFor boardName)
  | DebugIsEnabled => None
  end.

(** The first check, in order, that does not pass. *)
Definition firstFailing : option Check :=
  List.find (fun c => negb (holds c)) checksInOrder.

(** The three fetch invocations, in the order of the array literal
    handed to [Promise.all]. *)
Definition fetches (f : string) : list (Debug.Call Err) :=
  [Debug.CallGetDetails f; Debug.CallGetData f; Debug.CallAppendConfigToFqbn f].

(** The CLI check on its own, entered after the fetches for [f] with
    the parameters [params]: what the call ends with, and all the
    invocations made. *)
Definition cliStage (s : Sketch.t) (b : BoardIdentifier.t) (f : string)
    (params : CheckDebugEnabledParams.t)
  : Debug.Completion Err unit * list (Debug.Call Err) :=
  match Debug.checkDebugEnabled cb params with
  | Returns _ => (Debug.Normal tt, fetches f ++ [Debug.CallCheckDebugEnabled params])
  | Throws e | Rejects e =>
      (match Debug.isSketchNotVerifiedError cb (Debug.Raised e) s with
       | Returns true =>
           Debug.Abrupt (Debug.NewError (Debug.sketchIsNotCompiled (Sketch.name s)))
       | Returns false =>
           Debug.Abrupt
             (Debug.NewError (Debug.debuggingNotSupported (BoardIdentifier.name b)))
       | Throws e' | Rejects e' => Debug.Abrupt (Debug.Raised e')
       end,
       fetches f ++ [Debug.CallCheckDebugEnabled params;
                     Debug.CallIsSketchNotVerifiedError (Debug.Raised e) s])
  end.

(** The conditions under which debugging can be started, in the
    words of the specification: "the current sketch is valid, a board
    with a defined fqbn is selected, getDetails returns board details,
    appendConfigToFqbn returns a decorated FQBN string, the board's
    stored data contains a selectedProgrammer, and checkDebugEnabled
    resolves". *)
Definition conditionsAsStated : Prop :=
  exists s b f details fq d p,
    Debug.CurrentSketch_isValid sketch = Some s /\
    board = Some b /\ BoardIdentifier.fqbn b = Some f /\
    Debug.getDetails cb f = Returns (Some details) /\
    Debug.appendConfigToFqbn cb f = Returns (Some fq) /\
    Debug.getData cb f = Returns d /\
    Data.selectedProgrammer d = Some p /\
    Debug.checkDebugEnabled cb
      {| CheckDebugEnabledParams.fqbn := fq;
         CheckDebugEnabledParams.programmer := Programmer.id p;
         CheckDebugEnabledParams.sketchUri := Sketch.uri s |} = Returns tt.
End Checks.
End Spec.

(** ** boards-data-store.ts: the selected board's data, the startup
    task, the command and the platform-install listener *)

Module BoardsDataStoreLifecycle.
Import BoardsDataStore.
Local Open Scope store_scope.

(** The listener of [onPlatformDidInstall] tests a stored value with
    [!storedData].  Objects are truthy; for a stored value that is not an
    object (a number, a string, a boolean, [null]) it depends on the
    value, which [Stored] does not keep: [junkIsTruthy key] tells it for
    the value under [key]. *)
Class StoredJunk : Type := { junkIsTruthy : string -> bool }.

(** [!!storedData] *)
Definition storedTruthy `{!StoredJunk} (key : string) (storedData : option Stored)
  : bool :=
  match storedData with
  | None => false
  | Some NotAnObject => junkIsTruthy key
  | Some (Object _ _ _ _) => true
  end.

(** The argument a command is executed with, of type [unknown], as
    [isBoardsDataStoreChange] sees it: something that is not an object,
    or an object with its [fqbn] and [data] properties. *)
Inductive CommandArg : Type :=
  | NotAnArgObject
  | ArgObject (fqbn : Field string) (data : option Stored).

(** [isBoardsDataStoreChange] *)
Definition isBoardsDataStoreChange (arg : CommandArg) : bool :=
  match arg with
  | ArgObject fqbn data => isHeld fqbn && Data_is data
  | NotAnArgObject => false
  end.

(** Reading an argument at type [BoardsDataStoreChange], once
    [isBoardsDataStoreChange] has narrowed it. *)
Definition asChange (arg : CommandArg) : BoardsDataStoreChange :=
  match arg with
  | ArgObject fqbn data => {| fqbn := fieldOr "" fqbn; data := asData data |}
  | NotAnArgObject => {| fqbn := ""; data := Data.EMPTY |}
  end.

(** A change as it travels in the arguments of a startup task. *)
Definition toArg (change : BoardsDataStoreChange) : CommandArg :=
  ArgObject (Holds (fqbn change)) (Some (toStored (data change))).

(** [USE_INHERITED_DATA] *)
Definition USE_INHERITED_DATA : string := "arduino-use-inherited-boards-data".

(** [StartupTask] *)
Record StartupTask : Type :=
  mkTask { command : string; args : list CommandArg }.

(** The instance: the services' state and the field [_selectedBoardData]. *)
Record Instance : Type := mkInstance {
  store : Store;
  _selectedBoardData : option BoardsDataStoreChange;
}.

(** The handler registered for [USE_INHERITED_DATA] in
    [registerCommands]. *)
Definition useInheritedData (arg : CommandArg) : M unit :=
  if isBoardsDataStoreChange arg then
    setData (asChange arg) ;;;
    fireChanged [asChange arg]
  else ret tt.

(** [tasks] *)
Definition tasks (this : Instance) : list StartupTask :=
  match _selectedBoardData this with
  | None => []
  | Some selectedBoardData =>
      [{| command := USE_INHERITED_DATA; args := [toArg selectedBoardData] |}]
  end.

Section Listeners.
Context {Err : Type} `{!BoardsService Err} `{!StoredJunk}.

(** [getData], together with whether the object it returns is the
    constant [Data.EMPTY] itself: [getSelectedBoardData] compares with
    [===], and an object read from the storage or created from board
    details is never that constant. *)
Definition getDataRef (fqbn : option string) : M (Data.t * bool) :=
  match truthy fqbn with
  | None => ret (Data.EMPTY, true)
  | Some fqbn =>
      let key := getStorageKey fqbn in
      storedData <- storageService_getData key ;;
      if Data_is storedData then ret (asData storedData, false)
      else
        boardDetails <- loadBoardDetails fqbn ;;
        match boardDetails with
        | None => ret (Data.EMPTY, true)
        | Some boardDetails =>
            let data := createDataStoreEntry boardDetails in
            storageService_setData key data ;;;
            ret (data, false)
        end
  end.

(** [getSelectedBoardData] *)
Definition getSelectedBoardData (fqbn : option string)
  : M (option BoardsDataStoreChange) :=
  match truthy fqbn with
  | None => ret None
  | Some fqbn =>
      r <- getDataRef (Some fqbn) ;;
      let '(data, isEMPTY) := r in
      if (isEMPTY : bool) then ret None
      else ret (Some {| fqbn := fqbn; data := data |})
  end.

(** [updateSelectedBoardData] *)
Definition updateSelectedBoardData (fqbn : option string) (this : Instance)
  : Instance :=
  let '(selected, st) := getSelectedBoardData fqbn (store this) in
  {| store := st; _selectedBoardData := selected |}.

(** The loop of the [onPlatformDidInstall] listener over
    [boardsWithFqbn], with the changes collected so far. *)
Fixpoint refreshInstalled (boardsWithFqbn : list string)
    (changes : list BoardsDataStoreChange) : M (list BoardsDataStoreChange) :=
  match boardsWithFqbn with
  | [] => ret changes
  | fqbn :: rest =>
      let key := getStorageKey fqbn in
      storedData <- storageService_getData key ;;
      if negb (storedTruthy key storedData) then refreshInstalled rest changes
      else
        details <- loadBoardDetails fqbn ;;
        match details with
        | Some details =>
            let data := createDataStoreEntry details in
            storageService_setData key data ;;;
            refreshInstalled rest (changes ++ [{| fqbn := fqbn; data := data |}])
        | None => refreshInstalled rest changes
        end
  end.

(** The [onPlatformDidInstall] listener of [onStart], from the list
    [boardsWithFqbn] on (the FQBNs of the installed platform's boards
    that pass [notEmpty], in order). *)
Definition onPlatformDidInstall (boardsWithFqbn : list string) : M unit :=
  changes <- refreshInstalled boardsWithFqbn [] ;;
  match changes with
  | [] => ret tt
  | _ => fireChanged changes
  end.
End Listeners.

End BoardsDataStoreLifecycle.

(** ** contributions/debug.ts: the disabled message and the
    classification of CLI errors *)

Module DebugState.
Import Debug.

(** How a value that came out of a callback is looked at: [String(err)],
    [err instanceof Error] together with [err.message], and, for the
    rejections handed to one [Promise.all], the one that settles first. *)
Class Inspect (Err : Type) : Type := {
  toString : Err -> string;
  asError : Err -> option string;
  firstSettled : list Err -> Err;
}.

(** The injected [SketchesService], as far as the class uses it here. *)
Class SketchesService (Err : Type) : Type := {
  tempBuildPath : Sketch.t -> Outcome Err (list string);
}.

(** The part of the instance that [refreshState] works on: the field
    [_disabledMessages] and what [disabledMessageDidChangeEmitter] has
    fired, in order. *)
Record State : Type := mkState {
  _disabledMessages : option string;
  emitted : list (option string);
}.

(** The state of a new instance ("initial pessimism"). *)
Definition initial `{!Nls} : State :=
  {| _disabledMessages := Some noBoardSelected; emitted := [] |}.

(** [get disabledMessage] *)
Definition disabledMessage (this : State) : option string :=
  _disabledMessages this.

(** [set disabledMessage] *)
Definition set_disabledMessage (message : option string) (this : State) : State :=
  {| _disabledMessages := message; emitted := emitted this ++ [message] |}.

(** [isEnabled] of the command [START_DEBUGGING]. *)
Definition isEnabled (this : State) : bool := falsy (disabledMessage this).

(** What the listener of [boardsDataStore.onDidChange] in [onStart]
    decides: whether to refresh the state. *)
Definition refreshesOn (selectedFqbn : option string)
    (event : BoardsDataStore.BoardsDataStoreChangeEvent) : bool :=
  match List.find (fun change =>
                     bool_decide (Some (BoardsDataStore.fqbn change) = selectedFqbn))
                  (BoardsDataStore.changes event) with
  | Some _ => true
  | None => false
  end.

Section Inspection.
Context {Err : Type} `{!Inspect Err}.

(** The value a rejection is caught as. *)
Inductive Caught : Type :=
  | CaughtNew (message : string)
  | CaughtForeign (e : Err).

Definition caught (t : Thrown Err) : Caught :=
  match t with
  | NewError message => CaughtNew message
  | Raised e => CaughtForeign e
  | FirstRejected es => CaughtForeign (firstSettled es)
  end.

(** [String(err)]; for an [Error] made by [new Error(message)] that is
    ["Error"], followed by [": "] and the message unless it is empty. *)
Definition String_of_thrown (t : Thrown Err) : string :=
  match caught t with
  | CaughtNew message =>
      if bool_decide (message = "") then "Error" else "Error: " +:+ message
  | CaughtForeign e => toString e
  end.

(** [err instanceof Error], with [err.message]. *)
Definition message_of_thrown (t : Thrown Err) : option string :=
  match caught t with
  | CaughtNew message => Some message
  | CaughtForeign e => asError e
  end.

(** The end of [refreshState], from the settled promise of
    [isDebugEnabled] on. *)
Definition settle (completion : Completion Err unit) (this : State) : State :=
  match completion with
  | Normal _ => set_disabledMessage None this
  | Abrupt err =>
      let this := set_disabledMessage (Some (String_of_thrown err)) this in
      match message_of_thrown err with
      | Some message => set_disabledMessage (Some message) this
      | None => this
      end
  end.

Context `{!Nls}.

(** [refreshState], for the current sketch, the selected board and the
    five callbacks it hands to [isDebugEnabled]. *)
Definition refreshState (sketch : option CurrentSketch)
    (board : option BoardIdentifier.t) (cb : Callbacks Err) (this : State) : State :=
  settle (run sketch board cb).1 this.

Context `{!SketchesService Err}.

(** [isSketchNotVerifiedError] of the class: what the promise it
    returns fulfils with (it never rejects). *)
Definition isSketchNotVerifiedError (err : Thrown Err) (sketch : Sketch.t) : bool :=
  match message_of_thrown err with
  | Some message =>
      match tempBuildPath sketch with
      | Returns tempBuildPaths =>
          existsb (fun tempBuildPath => includes tempBuildPath message) tempBuildPaths
      | Throws _ | Rejects _ => false
      end
  | None => false
  end.

(** The callbacks with the class's own classification, as
    [refreshState] passes it. *)
Definition withOwnClassifier (cb : Callbacks Err) : Callbacks Err :=
  {| getDetails := getDetails cb;
     getData := getData cb;
     appendConfigToFqbn := appendConfigToFqbn cb;
     checkDebugEnabled := checkDebugEnabled cb;
     Debug.isSketchNotVerifiedError :=
       fun err sketch => Returns (isSketchNotVerifiedError err sketch) |}.
End Inspection.

(** [toggleCompileForDebug], [n] times in a row. *)
Fixpoint toggleTimes (n : nat) (w : Window) : Window :=
  match n with
  | O => w
  | S n => toggleCompileForDebug (toggleTimes n w)
  end.

End DebugState.

(** ** Instances and data for the examples of the two modules above *)

Module Scenario.
Import BoardsDataStore BoardsDataStoreLifecycle Fixtures.

(** Stored values that are not objects count as falsy. *)
Instance junk : StoredJunk := {| junkIsTruthy _ := false |}.

(** Caught values are [Error]s, given by their message. *)
Instance inspect : DebugState.Inspect string := {|
  DebugState.toString e :=
    if bool_decide (e = "") then "Error" else "Error: " +:+ e;
  DebugState.asError e := Some e;
  DebugState.firstSettled es := default "" (head es);
|}.

(** The build folder of [sketch]. *)
Instance sketches : DebugState.SketchesService string := {|
  DebugState.tempBuildPath _ := Returns ["/tmp/arduino/sketches/ABCDEF"];
|}.

(** The stored entry with [p2] selected by the user. *)
Definition chosen : Data.t := Spec.withProgrammer data p2.

(** A second board, unknown to the boards service. *)
Definition other : string := "x:y:z".

(** Callbacks whose CLI check fails on a missing build folder. *)
Definition notCompiled : Debug.Callbacks string :=
  Debug.mkCallbacks (fun _ => Returns (Some boardDetails)) (fun _ => Returns data)
    (fun fqbn => Returns (Some fqbn))
    (fun _ => Rejects "no such file: /tmp/arduino/sketches/ABCDEF/My_Sketch.ino.elf")
    (fun _ _ => unexpectedCall).

(** Callbacks whose board-details request is rejected. *)
Definition detailsRejected : Debug.Callbacks string :=
  Debug.mkCallbacks (fun _ => Rejects "platform is not installed")
    (fun _ => Returns Data.EMPTY) (fun fqbn => Returns (Some fqbn))
    (fun _ => unexpectedCall) (fun _ _ => unexpectedCall).
End Scenario.

(** ** What the data store keeps true of the storage *)

Module Invariants.
Import BoardsDataStore.

(** The selected programmer of a data entry, if there is one, is one of
    the entry's programmers, as [Programmer.equals] decides. *)
Definition selectionIsMember `{!ProtocolHelpers} (d : Data.t) : bool :=
  match Data.selectedProgrammer d with
  | Some p => existsb (Programmer_equals p) (Data.programmers d)
  | None => true
  end.

(** Every value of the storage that [Data.is] accepts has that property. *)
Definition selectionsAreMembers `{!ProtocolHelpers} (st : Store) : Prop :=
  forall key v,
    storage st !! key = Some v -> Data_is (Some v) = true ->
    selectionIsMember (asData (Some v)) = true.
End Invariants.

(** ** Properties of the board data store *)

Module BoardsDataStoreProofs.
Import BoardsDataStore.
Local Open Scope store_scope.

Lemma falsy_truthy (s : option string) :
  falsy s = true -> truthy s = None.
Proof. unfold truthy. intros ->. reflexivity. Qed.

Lemma truthy_Some (s : option string) (f : string) :
  truthy s = Some f <-> s = Some f /\ f <> "".
Proof.
  unfold truthy, falsy. destruct s as [x|].
  - case_bool_decide as Hx; split.
    + discriminate.
    + intros [[= ->] Hne]. contradiction.
    + intros [= ->]. auto.
    + intros [[= ->] _]. reflexivity.
  - split; [discriminate|]. intros [[=] _].
Qed.

Lemma truthy_None (s : option string) :
  truthy s = None <-> s = None \/ s = Some "".
Proof.
  unfold truthy, falsy. destruct s as [x|].
  - case_bool_decide as Hx; split.
    + intros _. right. by rewrite Hx.
    + reflexivity.
    + discriminate.
    + intros [[=]|[= ->]]. contradiction.
  - split; auto.
Qed.

(** [Data.is] accepts what [setData] writes, and reading it back gives
    the data written. *)
Lemma Data_is_toStored (d : Data.t) : Data_is (Some (toStored d)) = true.
Proof. destruct d as [c p [s|] [i|]]; reflexivity. Qed.

Lemma asData_toStored (d : Data.t) : asData (Some (toStored d)) = d.
Proof. destruct d as [c p [s|] [i|]]; reflexivity. Qed.

(** Under [Data.is], the typed reading loses nothing. *)
Lemma toStored_asData (arg : option Stored) :
  Data_is arg = true -> arg = Some (toStored (asData arg)).
Proof.
  destruct arg as [[|c p s i]|]; simpl; try discriminate.
  destruct c, p, s, i; simpl; try discriminate; reflexivity.
Qed.

Section WithServices.
Context {Err : Type} `{!BoardsService Err} `{!ProtocolHelpers}.

(** Loading board details sends one request and touches neither the
    storage nor the emitter. *)
Lemma loadBoardDetails_frame (fqbn : string) (st : Store) :
  storage (loadBoardDetails fqbn st).2 = storage st /\
  fired (loadBoardDetails fqbn st).2 = fired st /\
  requested (loadBoardDetails fqbn st).2 = requested st ++ [fqbn].
Proof.
  unfold loadBoardDetails, bind, boardsService_getBoardDetails.
  destruct (getBoardDetails fqbn) as [d|e|e]; simpl; auto;
    (destruct (errorMessage e) as [m|]; [destruct (_ && _)|]; simpl; auto).
Qed.

Lemma getData_falsy (fqbn : option string) (st : Store) :
  truthy fqbn = None -> getData fqbn st = (Data.EMPTY, st).
Proof. unfold getData. intros ->. reflexivity. Qed.

Lemma getData_hit (fqbn : option string) (f : string) (st : Store) :
  truthy fqbn = Some f ->
  Data_is (storage st !! getStorageKey f) = true ->
  getData fqbn st = (asData (storage st !! getStorageKey f), st).
Proof.
  unfold getData. intros -> Hit.
  unfold bind, storageService_getData, ret. rewrite Hit. reflexivity.
Qed.

Lemma getData_miss (fqbn : option string) (f : string) (st : Store) :
  truthy fqbn = Some f ->
  Data_is (storage st !! getStorageKey f) = false ->
  getData fqbn st =
    match (loadBoardDetails f st).1 with
    | Some details =>
        (createDataStoreEntry details,
         {| storage := <[getStorageKey f := toStored (createDataStoreEntry details)]>
                         (storage (loadBoardDetails f st).2);
            fired := fired (loadBoardDetails f st).2;
            requested := requested (loadBoardDetails f st).2;
            logged := logged (loadBoardDetails f st).2 |})
    | None => (Data.EMPTY, (loadBoardDetails f st).2)
    end.
Proof.
  unfold getData. intros -> Miss.
  unfold bind at 1. unfold storageService_getData at 1. rewrite Miss.
  unfold bind. destruct (loadBoardDetails f st) as [[details|] st1]; reflexivity.
Qed.

(** Whatever [getData] returns for a non-empty FQBN, other than the
    empty data of a failed load, is what the storage then holds. *)
Lemma getData_stored (f : string) (st : Store) :
  (getData (Some f) st).1 = Data.EMPTY \/
  storage (getData (Some f) st).2 !! getStorageKey f
    = Some (toStored (getData (Some f) st).1).
Proof.
  destruct (truthy (Some f)) as [f'|] eqn:Hf.
  - apply truthy_Some in Hf as [[= <-] Hne].
    assert (Ht : truthy (Some f) = Some f) by (apply truthy_Some; auto).
    destruct (Data_is (storage st !! getStorageKey f)) eqn:His.
    + rewrite (getData_hit _ _ _ Ht His). right. simpl.
      apply toStored_asData, His.
    + rewrite (getData_miss _ _ _ Ht His).
      destruct (loadBoardDetails f st).1; simpl; [right|left; reflexivity].
      apply lookup_insert_eq.
  - left. rewrite getData_falsy; auto.
Qed.

(** With an accepted entry in the storage, [getData] changes nothing. *)
Lemma getData_warm (f : string) (st : Store) :
  Data_is (storage st !! getStorageKey f) = true ->
  (getData (Some f) st).2 = st.
Proof.
  intros His. destruct (truthy (Some f)) as [f'|] eqn:Hf.
  - apply truthy_Some in Hf as [[= <-] Hne].
    assert (Ht : truthy (Some f) = Some f) by (apply truthy_Some; auto).
    rewrite (getData_hit _ _ _ Ht His). reflexivity.
  - rewrite getData_falsy; auto.
Qed.

(** [getData] fires no change event. *)
Lemma getData_frame_fired (fqbn : option string) (st : Store) :
  fired (getData fqbn st).2 = fired st.
Proof.
  destruct (truthy fqbn) as [f|] eqn:Hf; [|by rewrite getData_falsy].
  destruct (Data_is (storage st !! getStorageKey f)) eqn:His.
  - by rewrite (getData_hit _ _ _ Hf His).
  - rewrite (getData_miss _ _ _ Hf His).
    destruct (loadBoardDetails_frame f st) as (_ & Hfi & _).
    destruct (loadBoardDetails f st).1; simpl; exact Hfi.
Qed.

Lemma find_existsb {A} (p : A -> bool) (l : list A) :
  existsb p l = match List.find p l with Some _ => true | None => false end.
Proof. induction l as [|a l IH]; simpl; [reflexivity|]. destruct (p a); auto. Qed.

Lemma markSelected_selectOnly (values : list ConfigValue.t) (sv : string) (u : bool) :
  markSelected values sv u =
    (Spec.selectOnly sv values,
     u || existsb (fun v => bool_decide (ConfigValue.value v = sv)) values).
Proof.
  revert u. induction values as [|v values IH]; intros u; simpl.
  - rewrite orb_false_r. reflexivity.
  - case_bool_decide; rewrite IH; simpl.
    + by rewrite orb_true_r.
    + reflexivity.
Qed.

(** [findOption] is [find] on the option name, with the position of
    the first match. *)
Lemma findOption_None (cs : list ConfigOption.t) (o : string) (i : nat) :
  findOption cs o i = None <->
  List.find (fun c => bool_decide (ConfigOption.option c = o)) cs = None.
Proof.
  revert i. induction cs as [|c cs IH]; intros i; simpl; [done|].
  case_bool_decide; [done|apply IH].
Qed.

Lemma findOption_Some (cs : list ConfigOption.t) (o : string) (i k : nat)
    (c : ConfigOption.t) :
  findOption cs o i = Some (k, c) ->
  exists n, k = i + n /\ cs !! n = Some c /\ ConfigOption.option c = o /\
    List.find (fun c => bool_decide (ConfigOption.option c = o)) cs = Some c /\
    forall m c', m < n -> cs !! m = Some c' -> ConfigOption.option c' <> o.
Proof.
  revert i. induction cs as [|c0 cs IH]; intros i; simpl; [done|].
  case_bool_decide as Hc.
  - intros [= <- <-]. exists 0. repeat split; auto with lia.
  - intros Hfo. apply IH in Hfo as (n & -> & Hn & Ho & Hf & Hfirst).
    exists (S n). repeat split; auto with lia.
    intros [|m] c' Hm; simpl; [by intros [= <-]|].
    apply Hfirst. lia.
Qed.

(** [selectProgrammer] and [selectConfigOption] in one equation each. *)
Lemma selectProgrammer_run
    (fqbn : string) (selectedProgrammer : Programmer.t) (st : Store) :
  selectProgrammer fqbn selectedProgrammer st =
    let d := (getData (Some fqbn) st).1 in
    let st1 := (getData (Some fqbn) st).2 in
    if existsb (Programmer_equals selectedProgrammer) (Data.programmers d)
    then (true, Spec.persisted fqbn (Spec.withProgrammer d selectedProgrammer) st1)
    else (false, st1).
Proof.
  unfold selectProgrammer, bind.
  destruct (getData (Some fqbn) st) as [d st1]. simpl. unfold deepClone.
  rewrite find_existsb. destruct (List.find _ _); reflexivity.
Qed.

Lemma selectConfigOption_run
    (fqbn option' selectedValue : string) (st : Store) :
  selectConfigOption fqbn option' selectedValue st =
    let d := (getData (Some fqbn) st).1 in
    let st1 := (getData (Some fqbn) st).2 in
    match findOption (Data.configOptions d) option' 0 with
    | Some (i, c) =>
        if Spec.offers selectedValue c
        then (true,
              Spec.persisted fqbn
                (Spec.withOption d i
                   (Spec.withValues c
                      (Spec.selectOnly selectedValue (ConfigOption.values c))))
                st1)
        else (false, st1)
    | None => (false, st1)
    end.
Proof.
  unfold selectConfigOption, bind.
  destruct (getData (Some fqbn) st) as [d st1]. simpl. unfold deepClone.
  destruct (findOption _ _ _) as [[i c]|]; [|reflexivity].
  rewrite markSelected_selectOnly. simpl. fold (Spec.offers selectedValue c).
  destruct (Spec.offers selectedValue c); reflexivity.
Qed.

Lemma loadBoardDetails_value (fqbn : string) (st : Store) :
  (loadBoardDetails fqbn st).1 =
    match getBoardDetails fqbn with Returns details => details | _ => None end.
Proof.
  unfold loadBoardDetails, bind, boardsService_getBoardDetails.
  destruct (getBoardDetails fqbn) as [d|e|e]; simpl; auto;
    (destruct (errorMessage e) as [m|]; [destruct (_ && _)|]; simpl; auto).
Qed.

(** C4 (amended).  [getData] is a cache over the storage service for
    every FQBN that is defined and not the empty string: if the
    storage holds, under the key [.arduinoIDE-configOptions-] followed
    by the FQBN, a value that [Data.is] accepts, that value is
    returned and nothing else happens (no request for board details,
    no write); otherwise board details are requested once, and either
    the freshly created entry is written under that key and returned,
    or, when the details cannot be loaded, [Data.EMPTY] is returned
    and nothing is written.  For an FQBN that is undefined or the
    empty string, [Data.EMPTY] is returned and nothing happens. *)
Theorem getData_cache (fqbn : option string) (st : Store) :
  (fqbn = None \/ fqbn = Some "" -> getData fqbn st = (Data.EMPTY, st)) /\
  (forall f, fqbn = Some f -> f <> "" ->
     let key := ".arduinoIDE-configOptions-" +:+ f in
     (forall v, storage st !! key = Some v -> Data_is (Some v) = true ->
        exists d, getData fqbn st = (d, st) /\ toStored d = v) /\
     (Data_is (storage st !! key) = false ->
        let st1 := (loadBoardDetails f st).2 in
        requested st1 = requested st ++ [f] /\
        storage st1 = storage st /\ fired st1 = fired st /\
        match getBoardDetails f with
        | Returns (Some details) =>
            let entry := createDataStoreEntry details in
            getData fqbn st =
              (entry, {| storage := <[key := toStored entry]> (storage st);
                         fired := fired st;
                         requested := requested st ++ [f];
                         logged := logged st1 |})
        | _ => getData fqbn st = (Data.EMPTY, st1)
        end)).
Proof.
  split.
  - intros Hf. apply getData_falsy, truthy_None, Hf.
  - intros f -> Hne. cbv zeta.
    change (".arduinoIDE-configOptions-" +:+ f) with (getStorageKey f).
    assert (Ht : truthy (Some f) = Some f) by (apply truthy_Some; auto).
    split.
    + intros v Hv His. exists (asData (Some v)).
      rewrite (getData_hit _ _ _ Ht); rewrite Hv; [|exact His].
      split; [reflexivity|].
      apply toStored_asData in His. by injection His.
    + intros Miss.
      destruct (loadBoardDetails_frame f st) as (Hs & Hfi & Hr).
      repeat (split; [assumption|]).
      rewrite (getData_miss _ _ _ Ht Miss), loadBoardDetails_value.
      rewrite Hs, Hfi, Hr.
      destruct (getBoardDetails f) as [[details|]|e|e]; reflexivity.
Qed.

(** C5 (amended).  [selectProgrammer] reads the data [getData] yields
    for the FQBN (the stored entry, or the entry created and cached on
    first load).  It returns true exactly when the given programmer is
    a member of the programmers of that data, as [Programmer.equals]
    decides; it then persists that data with [selectedProgrammer] set
    to the given programmer and fires one change event for the FQBN.
    When the programmer is not a member it returns false, fires no
    event and writes nothing of its own: the state is as [getData]
    leaves it, which is the state before the call whenever the
    storage already held an accepted entry. *)
Theorem selectProgrammer_membership
    (fqbn : string) (selectedProgrammer : Programmer.t) (st : Store) :
  let d := (getData (Some fqbn) st).1 in
  let st1 := (getData (Some fqbn) st).2 in
  let r := (selectProgrammer fqbn selectedProgrammer st).1 in
  let st2 := (selectProgrammer fqbn selectedProgrammer st).2 in
  r = existsb (Programmer_equals selectedProgrammer) (Data.programmers d) /\
  (r = true ->
     st2 = Spec.persisted fqbn (Spec.withProgrammer d selectedProgrammer) st1) /\
  (r = false -> st2 = st1 /\ fired st2 = fired st) /\
  (Data_is (storage st !! getStorageKey fqbn) = true -> st1 = st).
Proof.
  cbv zeta. rewrite selectProgrammer_run. cbv zeta.
  pose proof (getData_frame_fired (Some fqbn) st) as Hfired.
  destruct (existsb _ _); simpl.
  all: split; [reflexivity|].
  all: split; [intros; try discriminate; reflexivity|].
  all: split; [intros; try discriminate; auto|].
  all: intros His; apply getData_warm, His.
Qed.

(** C6 (amended).  [selectConfigOption] reads the data [getData]
    yields for the FQBN and looks at the first config option with the
    given name.  If one of the values of that option equals the
    selected value, it returns true, persists the data in which
    exactly the matching values of that option are selected and its
    other values are not (everything else as it was), and fires one
    change event.  If no config option has that name, or the first one
    with that name has no value equal to the selected value, it
    returns false, fires no event and writes nothing of its own: the
    state is as [getData] leaves it, which is the state before the
    call whenever the storage already held an accepted entry. *)
Theorem selectConfigOption_first_option
    (fqbn option' selectedValue : string) (st : Store) :
  let d := (getData (Some fqbn) st).1 in
  let st1 := (getData (Some fqbn) st).2 in
  let r := (selectConfigOption fqbn option' selectedValue st).1 in
  let st2 := (selectConfigOption fqbn option' selectedValue st).2 in
  match List.find (fun c => bool_decide (ConfigOption.option c = option'))
                  (Data.configOptions d) with
  | Some c =>
      r = Spec.offers selectedValue c /\
      (r = true ->
         exists i,
           Data.configOptions d !! i = Some c /\
           (forall j c', j < i -> Data.configOptions d !! j = Some c' ->
              ConfigOption.option c' <> option') /\
           st2 = Spec.persisted fqbn
                   (Spec.withOption d i
                      (Spec.withValues c
                         (Spec.selectOnly selectedValue (ConfigOption.values c))))
                   st1) /\
      (r = false -> st2 = st1 /\ fired st2 = fired st)
  | None => r = false /\ st2 = st1 /\ fired st2 = fired st
  end /\
  (Data_is (storage st !! getStorageKey fqbn) = true -> st1 = st).
Proof.
  cbv zeta. rewrite selectConfigOption_run. cbv zeta.
  pose proof (getData_frame_fired (Some fqbn) st) as Hfired.
  split; [|intros His; apply getData_warm, His].
  destruct (findOption _ option' 0) as [[i c]|] eqn:Hfind.
  - apply findOption_Some in Hfind as (n & -> & Hn & Ho & Hf & Hfirst).
    rewrite Hf. simpl.
    destruct (Spec.offers selectedValue c); simpl.
    all: split; [reflexivity|].
    all: split; [intros; try discriminate|intros; try discriminate; auto].
    exists n. auto.
  - apply findOption_None in Hfind. rewrite Hfind. auto.
Qed.

(** C7 (amended).  [appendConfigToFqbn] returns undefined if and only
    if its argument is undefined or the empty string; for every other
    FQBN it returns the FQBN decorated, by [ConfigOption.decorate],
    with the config options of the data [getData] yields for it (and
    leaves the state as [getData] does). *)
Theorem appendConfigToFqbn_decorates (fqbn : option string) (st : Store) :
  ((appendConfigToFqbn fqbn st).1 = None <-> fqbn = None \/ fqbn = Some "") /\
  (forall f, fqbn = Some f -> f <> "" ->
     appendConfigToFqbn fqbn st =
       (Some (ConfigOption_decorate f (Data.configOptions (getData fqbn st).1)),
        (getData fqbn st).2)).
Proof.
  split.
  - rewrite <- truthy_None. unfold appendConfigToFqbn, bind.
    destruct (truthy fqbn) as [f|]; [|done].
    destruct (getData (Some f) st). done.
  - intros f -> Hne. unfold appendConfigToFqbn, bind.
    assert (Ht : truthy (Some f) = Some f) by (apply truthy_Some; auto).
    rewrite Ht. destruct (getData (Some f) st). reflexivity.
Qed.

(** C9 (amended).  On its success path [selectProgrammer] changes only
    the [selectedProgrammer] field of the data [getData] yields for the
    FQBN: the entry it persists has the [configOptions], [programmers]
    and [defaultProgrammerId] of that data, which is what the storage
    holds when [getData] has returned; it is the previously stored data
    whenever the storage held a value that [Data.is] accepts, and the
    entry created from the board details otherwise.  No other key of the
    storage changes. *)
Theorem selectProgrammer_frame
    (fqbn : string) (selectedProgrammer : Programmer.t) (st : Store) :
  (selectProgrammer fqbn selectedProgrammer st).1 = true ->
  let key := getStorageKey fqbn in
  let st1 := (getData (Some fqbn) st).2 in
  let st2 := (selectProgrammer fqbn selectedProgrammer st).2 in
  exists previous persisted : Data.t,
    previous = (getData (Some fqbn) st).1 /\
    storage st1 !! key = Some (toStored previous) /\
    (Data_is (storage st !! key) = true ->
       storage st !! key = Some (toStored previous)) /\
    (Data_is (storage st !! key) = false ->
       exists details, getBoardDetails fqbn = Returns (Some details) /\
         previous = createDataStoreEntry details) /\
    storage st2 !! key = Some (toStored persisted) /\
    Data.selectedProgrammer persisted = Some selectedProgrammer /\
    Data.configOptions persisted = Data.configOptions previous /\
    Data.programmers persisted = Data.programmers previous /\
    Data.defaultProgrammerId persisted = Data.defaultProgrammerId previous /\
    (forall k, k <> key -> storage st2 !! k = storage st1 !! k).
Proof.
  cbv zeta. rewrite selectProgrammer_run. cbv zeta.
  destruct (existsb _ _) eqn:Hmem; simpl; [intros _|discriminate].
  exists (getData (Some fqbn) st).1,
         (Spec.withProgrammer (getData (Some fqbn) st).1 selectedProgrammer).
  assert (Hst : storage (getData (Some fqbn) st).2 !! getStorageKey fqbn
                = Some (toStored (getData (Some fqbn) st).1)).
  { destruct (getData_stored fqbn st) as [He|Hs]; [|exact Hs].
    rewrite He in Hmem. discriminate. }
  repeat split; auto.
  - intros His. rewrite (getData_warm fqbn st His) in Hst. exact Hst.
  - intros Miss.
    destruct (truthy (Some fqbn)) as [f|] eqn:Hf.
    + pose proof Hf as Hf'. apply truthy_Some in Hf' as [[= <-] _].
      rewrite (getData_miss _ _ _ Hf Miss), loadBoardDetails_value in Hmem |- *.
      destruct (getBoardDetails fqbn) as [[details|]|e|e]; try discriminate.
      by exists details.
    + rewrite getData_falsy in Hmem by done. discriminate.
  - apply lookup_insert_eq.
  - intros k Hk. by apply lookup_insert_ne.
Qed.
End WithServices.

Lemma find_first {A} (p : A -> bool) (l : list A) (x : A) :
  List.find p l = Some x ->
  exists i, l !! i = Some x /\ p x = true /\
    forall j y, j < i -> l !! j = Some y -> p y = false.
Proof.
  induction l as [|a l IH]; simpl; [discriminate|].
  destruct (p a) eqn:Hpa.
  - intros [= <-]. exists 0. repeat split; auto. intros j y Hj. lia.
  - intros Hx. destruct (IH Hx) as (i & Hi & Hp & Hfirst).
    exists (S i). repeat split; auto.
    intros [|j] y Hj; simpl; [by intros [= <-]|].
    apply Hfirst. lia.
Qed.

Lemma find_None_all {A} (p : A -> bool) (l : list A) :
  List.find p l = None -> forall x, x ∈ l -> p x = false.
Proof.
  intros Hn x Hx. apply list_elem_of_In in Hx.
  exact (List.find_none p l Hn x Hx).
Qed.

(** C8 (amended).  In the data entry created on first load, the
    [selectedProgrammer] field is present if and only if
    [defaultProgrammerId] is defined, is not the empty string, and is
    the id of some programmer in the details' programmers list; when
    present it is the first programmer of the list with that id.  The
    [configOptions] and [programmers] of the entry are those of the
    details. *)
Theorem createDataStoreEntry_default_programmer (details : BoardDetails.t) :
  let entry := createDataStoreEntry details in
  (is_Some (Data.selectedProgrammer entry) <->
     exists id, BoardDetails.defaultProgrammerId details = Some id /\ id <> "" /\
       exists p, p ∈ BoardDetails.programmers details /\ Programmer.id p = id) /\
  (forall p, Data.selectedProgrammer entry = Some p ->
     exists i, BoardDetails.programmers details !! i = Some p /\
       BoardDetails.defaultProgrammerId details = Some (Programmer.id p) /\
       forall j q, j < i -> BoardDetails.programmers details !! j = Some q ->
         Programmer.id q <> Programmer.id p) /\
  Data.configOptions entry = BoardDetails.configOptions details /\
  Data.programmers entry = BoardDetails.programmers details.
Proof.
  destruct details as [f cs ps dpid vid pid bp]. cbv zeta.
  unfold createDataStoreEntry, findDefaultProgrammer; simpl.
  split; [|split; [|split; reflexivity]].
  - destruct dpid as [id|]; simpl.
    + case_bool_decide as Hid; simpl.
      * split; [intros [x [=]]|]. intros (id' & [= <-] & Hne & _). contradiction.
      * destruct (List.find _ ps) as [q|] eqn:Hfind.
        -- split; [intros _|by eauto].
           exists id. repeat split; auto. exists q.
           destruct (find_first _ _ _ Hfind) as (i & Hi & Hq & _).
           apply bool_decide_eq_true in Hq. injection Hq as Hq.
           split; [|exact Hq]. apply list_elem_of_lookup. eauto.
        -- split; [intros [x [=]]|]. intros (id' & [= <-] & _ & q & Hq & Hqid).
           pose proof (find_None_all _ _ Hfind q Hq) as Hno. simpl in Hno.
           apply bool_decide_eq_false in Hno. congruence.
    + split; [intros [x [=]]|]. intros (id' & [=] & _).
  - intros p. destruct dpid as [id|]; simpl; [|discriminate].
    case_bool_decide as Hid; simpl; [discriminate|].
    intros Hfind. destruct (find_first _ _ _ Hfind) as (i & Hi & Hp & Hfirst).
    apply bool_decide_eq_true in Hp. injection Hp as Hp.
    exists i. repeat split; [exact Hi|by rewrite Hp|].
    intros j q Hj Hq. specialize (Hfirst j q Hj Hq). simpl in Hfirst.
    apply bool_decide_eq_false in Hfirst. congruence.
Qed.

(** *** The claims at concrete inputs *)

Import Fixtures.

(** C4, as stated, at the empty string: the storage holds an accepted
    value under the key of the (defined) FQBN, and [getData] returns
    [Data.EMPTY] instead of it. *)
Lemma getData_empty_string_bypasses_storage :
  storage (keyless data) !! (".arduinoIDE-configOptions-" +:+ "")
    = Some (toStored data) /\
  Data_is (Some (toStored data)) = true /\
  getData (Some "") (keyless data) = (Data.EMPTY, keyless data) /\
  toStored Data.EMPTY <> toStored data.
Proof. repeat split; [done..|discriminate]. Qed.

(** C5, as stated, on first load: the programmer is not a member, the
    call returns false, and the storage, empty before, holds the
    created entry afterwards. *)
Lemma selectProgrammer_unknown_fills_cache :
  existsb (Programmer_equals p3) (BoardDetails.programmers boardDetails) = false /\
  (selectProgrammer Fixtures.fqbn p3 fresh).1 = false /\
  storage fresh !! getStorageKey Fixtures.fqbn = None /\
  storage (selectProgrammer Fixtures.fqbn p3 fresh).2 !! getStorageKey Fixtures.fqbn
    = Some (toStored data).
Proof. repeat split; vm_compute; reflexivity. Qed.

(** C6, as stated, fails in two ways.  A config option of the given
    name offers the selected value, but an earlier option of that name
    does not, and the call returns false; and on first load a call that
    returns false has written the created entry to the storage. *)
Lemma selectConfigOption_as_stated_fails :
  (In cpu (Data.configOptions shadowed) /\
   ConfigOption.option cpu = "cpu" /\
   Spec.offers "atmega168" cpu = true /\
   (selectConfigOption Fixtures.fqbn "cpu" "atmega168" (warm shadowed)).1 = false) /\
  ((selectConfigOption Fixtures.fqbn "cpu" "atmega168" fresh).1 = false /\
   storage fresh !! getStorageKey Fixtures.fqbn = None /\
   storage (selectConfigOption Fixtures.fqbn "cpu" "atmega168" fresh).2
     !! getStorageKey Fixtures.fqbn = Some (toStored data)).
Proof.
  split; [split; [simpl; auto|]|]; repeat split; vm_compute; reflexivity.
Qed.

(** C7, as stated, at the empty string: the argument is not undefined,
    and the result is. *)
Lemma appendConfigToFqbn_empty_string :
  (appendConfigToFqbn (Some "") fresh).1 = None /\ Some "" <> (None : option string).
Proof. split; [reflexivity|discriminate]. Qed.

(** C8, as stated, at an empty default programmer id: the id is
    defined and a programmer of the list has it, and the created entry
    has no selected programmer. *)
Lemma createDataStoreEntry_empty_default_id :
  BoardDetails.defaultProgrammerId detailsEmptyDefault = Some "" /\
  In unnamed (BoardDetails.programmers detailsEmptyDefault) /\
  Programmer.id unnamed = "" /\
  Data.selectedProgrammer (createDataStoreEntry detailsEmptyDefault) = None.
Proof. repeat split; simpl; auto. Qed.

(** C4 at the data of the test suite: the stored entry of [a:b:c] is
    returned, and nothing changes. *)
Lemma getData_cache_witness :
  exists d, getData (Some Fixtures.fqbn) (warm data) = (d, warm data) /\
            toStored d = toStored data.
Proof.
  destruct (getData_cache (Some Fixtures.fqbn) (warm data)) as [_ Hdefined].
  destruct (Hdefined Fixtures.fqbn eq_refl ltac:(discriminate)) as [Hhit _].
  exact (Hhit (toStored data) eq_refl eq_refl).
Defined.

(** C5 at the data of the test suite: [p2] is a programmer of the
    stored entry, and selecting it persists the entry with [p2]. *)
Lemma selectProgrammer_membership_witness :
  (selectProgrammer Fixtures.fqbn p2 (warm data)).2
    = Spec.persisted Fixtures.fqbn (Spec.withProgrammer data p2) (warm data).
Proof.
  destruct (selectProgrammer_membership Fixtures.fqbn p2 (warm data))
    as (_ & Hsuccess & _).
  exact (Hsuccess eq_refl).
Defined.

(** C6 at a stored entry with two config options: selecting the
    second value of [cpu]. *)
Lemma selectConfigOption_first_option_witness :
  exists i,
    Data.configOptions configured !! i = Some cpu /\
    (forall j c', j < i -> Data.configOptions configured !! j = Some c' ->
       ConfigOption.option c' <> "cpu") /\
    (selectConfigOption Fixtures.fqbn "cpu" "atmega168" (warm configured)).2
      = Spec.persisted Fixtures.fqbn
          (Spec.withOption configured i
             (Spec.withValues cpu
                (Spec.selectOnly "atmega168" (ConfigOption.values cpu))))
          (warm configured).
Proof.
  destruct (selectConfigOption_first_option Fixtures.fqbn "cpu" "atmega168"
              (warm configured)) as [(_ & Hsuccess & _) _].
  exact (Hsuccess eq_refl).
Defined.

(** C7 at the same entry: the FQBN [a:b:c] is decorated with its
    config options. *)
Lemma appendConfigToFqbn_decorates_witness :
  appendConfigToFqbn (Some Fixtures.fqbn) (warm configured)
    = (Some "a:b:c:cpu=atmega328,usb=serial", warm configured).
Proof.
  destruct (appendConfigToFqbn_decorates (Some Fixtures.fqbn) (warm configured))
    as [_ Hdefined].
  exact (Hdefined Fixtures.fqbn eq_refl ltac:(discriminate)).
Defined.

(** C8 at the board details of the test suite: the default programmer
    [p1] is selected, and it is the first programmer of the list. *)
Lemma createDataStoreEntry_default_programmer_witness :
  exists i, BoardDetails.programmers boardDetails !! i = Some p1 /\
    BoardDetails.defaultProgrammerId boardDetails = Some (Programmer.id p1) /\
    forall j q, j < i -> BoardDetails.programmers boardDetails !! j = Some q ->
      Programmer.id q <> Programmer.id p1.
Proof.
  destruct (createDataStoreEntry_default_programmer boardDetails)
    as (_ & Hselected & _).
  exact (Hselected p1 eq_refl).
Defined.

(** C9, as stated, at a stored value that [Data.is] rejects: the call
    succeeds, the previously stored data had two config options, and the
    persisted data, made from the board details, has none. *)
Lemma selectProgrammer_replaces_rejected_value :
  storage stale !! getStorageKey Fixtures.fqbn
    = Some (Object (Holds [cpu; usb]) Undefined Undefined Undefined) /\
  Data_is (storage stale !! getStorageKey Fixtures.fqbn) = false /\
  (selectProgrammer Fixtures.fqbn p2 stale).1 = true /\
  storage (selectProgrammer Fixtures.fqbn p2 stale).2 !! getStorageKey Fixtures.fqbn
    = Some (toStored (Spec.withProgrammer data p2)) /\
  Data.configOptions (Spec.withProgrammer data p2) = [] /\
  [cpu; usb] <> @nil ConfigOption.t.
Proof. repeat split; try (vm_compute; reflexivity). discriminate. Qed.

(** C9 at the data of the test suite: selecting [p2] for the stored
    entry. *)
Lemma selectProgrammer_frame_witness :
  (selectProgrammer Fixtures.fqbn p2 (warm data)).1 = true /\
  let key := getStorageKey Fixtures.fqbn in
  let st1 := (getData (Some Fixtures.fqbn) (warm data)).2 in
  let st2 := (selectProgrammer Fixtures.fqbn p2 (warm data)).2 in
  exists previous persisted : Data.t,
    previous = (getData (Some Fixtures.fqbn) (warm data)).1 /\
    storage st1 !! key = Some (toStored previous) /\
    (Data_is (storage (warm data) !! key) = true ->
       storage (warm data) !! key = Some (toStored previous)) /\
    (Data_is (storage (warm data) !! key) = false ->
       exists details, getBoardDetails Fixtures.fqbn = Returns (Some details) /\
         previous = createDataStoreEntry details) /\
    storage st2 !! key = Some (toStored persisted) /\
    Data.selectedProgrammer persisted = Some p2 /\
    Data.configOptions persisted = Data.configOptions previous /\
    Data.programmers persisted = Data.programmers previous /\
    Data.defaultProgrammerId persisted = Data.defaultProgrammerId previous /\
    (forall k, k <> key -> storage st2 !! k = storage st1 !! k).
Proof.
  split; [vm_compute; reflexivity|].
  apply (selectProgrammer_frame Fixtures.fqbn p2 (warm data)).
  vm_compute. reflexivity.
Defined.
End BoardsDataStoreProofs.

(** ** Properties of the debug contribution *)

Module DebugProofs.
Import Debug.

(** Closing the goals that remain once the run is known. *)
Ltac inhabit s0 e0 p0 :=
  first [exact "" | exact p0 | exact e0 | exact s0].

Ltac leaf s0 e0 p0 :=
  repeat match goal with
  | |- _ /\ _ => split
  | |- exists t, Abrupt _ = Abrupt t => eexists; reflexivity
  | |- Forall _ _ => repeat constructor; simpl; lia
  | |- exists f params err s, _ `prefix_of` _ =>
      unshelve (eexists _, _, _, _; eexists; reflexivity); inhabit s0 e0 p0
  | |- forall m : string, _ =>
      let Hm := fresh in let Hor := fresh in
      intros m Hm Hor; try discriminate;
      try (injection Hm as <-); try reflexivity;
      destruct Hor; discriminate
  | |- _ \/ _ -> _ =>
      let Hc := fresh in
      intros [Hc|[Hc|Hc]]; try discriminate; try reflexivity; congruence
  | |- _ = _ => reflexivity
  end.

Section WithCallbacks.
Context {Err : Type} `{!Nls}.
Implicit Types (sketch : option CurrentSketch) (board : option BoardIdentifier.t)
               (cb : Callbacks Err).

(** [isDebugEnabled], stage by stage. *)
Lemma run_invalid sketch board cb :
  CurrentSketch_isValid sketch = None ->
  run sketch board cb = (Abrupt (NewError noSketchOpened), []).
Proof. unfold run, isDebugEnabled. intros ->. reflexivity. Qed.

Lemma run_no_board sketch cb s :
  CurrentSketch_isValid sketch = Some s ->
  run sketch None cb = (Abrupt (NewError noBoardSelected), []).
Proof. unfold run, isDebugEnabled. intros ->. reflexivity. Qed.

Lemma run_no_fqbn sketch cb s b :
  CurrentSketch_isValid sketch = Some s ->
  truthy (BoardIdentifier.fqbn b) = None ->
  run sketch (Some b) cb =
    (Abrupt (NewError (noPlatformInstalledFor (BoardIdentifier.name b))), []).
Proof. unfold run, isDebugEnabled. intros -> ->. reflexivity. Qed.

Lemma run_fetched sketch cb s b f details d fq :
  CurrentSketch_isValid sketch = Some s ->
  truthy (BoardIdentifier.fqbn b) = Some f ->
  getDetails cb f = Returns details ->
  getData cb f = Returns d ->
  appendConfigToFqbn cb f = Returns fq ->
  run sketch (Some b) cb =
    match details with
    | None =>
        (Abrupt (NewError (noPlatformInstalledFor (BoardIdentifier.name b))),
         Spec.fetches f)
    | Some _ =>
        match truthy fq with
        | None => (Abrupt (NewError (failedToAppend f)), Spec.fetches f)
        | Some fq' =>
            match BoardsDataStore.Data.selectedProgrammer d with
            | None =>
                (Abrupt (NewError (noProgrammerSelectedFor (BoardIdentifier.name b))),
                 Spec.fetches f)
            | Some p =>
                Spec.cliStage cb s b f
                  {| CheckDebugEnabledParams.fqbn := fq';
                     CheckDebugEnabledParams.programmer := Programmer.id p;
                     CheckDebugEnabledParams.sketchUri := Sketch.uri s |}
            end
        end
    end.
Proof.
  unfold run, isDebugEnabled, Spec.cliStage. intros -> -> Hd Hda Hfq.
  unfold bind, invoke. rewrite Hd, Hda, Hfq. simpl.
  destruct details as [details|]; [|reflexivity].
  destruct (truthy fq) as [fq'|]; [|reflexivity].
  destruct (BoardsDataStore.Data.selectedProgrammer d) as [p|]; [|reflexivity].
  unfold tryCatch, bind, invoke. simpl.
  destruct (checkDebugEnabled cb _) as [[]|e|e]; simpl; [reflexivity| |];
    destruct (isSketchNotVerifiedError cb (Raised e) s) as [[|]|e'|e'];
    reflexivity.
Qed.

(** When one of the combined fetches throws or rejects, the call is
    rejected with a value that came out of a callback, and no
    callback of a later stage has been invoked. *)
Lemma run_unsettled sketch cb s b f :
  CurrentSketch_isValid sketch = Some s ->
  truthy (BoardIdentifier.fqbn b) = Some f ->
  Spec.fetchesSettle (Some b) cb = false ->
  exists t k, run sketch (Some b) cb = (Abrupt t, CallGetDetails f :: k) /\
    (CallGetDetails f :: k) `prefix_of` Spec.fetches f /\
    forall m, t <> NewError m.
Proof.
  unfold run, isDebugEnabled, Spec.fetchesSettle, Spec.presentFqbn.
  intros -> ->. unfold bind, invoke. simpl.
  destruct (getDetails cb f) as [details|e1|e1]; simpl;
    destruct (getData cb f) as [d|e2|e2]; simpl;
    destruct (appendConfigToFqbn cb f) as [fq|e3|e3]; simpl;
    try discriminate; intros _.
  all: eexists _, _; split; [reflexivity|].
  all: split; [|intros m; discriminate].
  all: unfold Spec.fetches; try reflexivity.
  all: try (eexists; reflexivity).
Qed.

(** C1.  For every combination of inputs, [isDebugEnabled] evaluates
    its checks in the fixed order of [Spec.checksInOrder] and rejects
    at the first check that fails: the call is rejected, every
    callback invoked belongs to the stage of that check or to an
    earlier one, and (for the checks before the CLI check, once the
    combined fetches have completed where they are needed) the
    rejection is the [Error] of that check; when no check fails the
    call resolves.  The callbacks are invoked in one fixed order, and
    none of them is invoked when the sketch is invalid, the board is
    undefined or the FQBN is missing. *)
Theorem isDebugEnabled_checks_in_order sketch board cb :
  let completion := (run sketch board cb).1 in
  let trace := (run sketch board cb).2 in
  match Spec.firstFailing sketch board cb with
  | Some c =>
      (exists t, completion = Abrupt t) /\
      Forall (fun call => Spec.callStage call <= Spec.stage c) trace /\
      (forall m, Spec.message board c = Some m ->
         Spec.stage c = 0 \/ Spec.fetchesSettle board cb = true ->
         completion = Abrupt (NewError m))
  | None => completion = Normal tt
  end /\
  (exists f params err s,
     trace `prefix_of`
       [CallGetDetails f; CallGetData f; CallAppendConfigToFqbn f;
        CallCheckDebugEnabled params; CallIsSketchNotVerifiedError err s]) /\
  (CurrentSketch_isValid sketch = None \/ board = None \/
   Spec.presentFqbn board = None -> trace = []).
Proof.
  cbv zeta.
  pose (s0 := Sketch.mk "" "" "").
  pose (e0 := NewError "" : Thrown Err).
  pose (p0 := CheckDebugEnabledParams.mk "" "" "").
  unfold Spec.firstFailing, Spec.checksInOrder, Spec.holds, Spec.cliParams,
    Spec.fetchesSettle, Spec.message, Spec.presentFqbn.
  destruct (CurrentSketch_isValid sketch) as [s|] eqn:Hs.
  2: { rewrite run_invalid by done. simpl. leaf s0 e0 p0. }
  destruct board as [b|].
  2: { rewrite (run_no_board _ _ _ Hs). simpl. leaf s0 e0 p0. }
  destruct (truthy (BoardIdentifier.fqbn b)) as [f|] eqn:Hf.
  2: { rewrite (run_no_fqbn _ _ _ _ Hs Hf). simpl. leaf s0 e0 p0. }
  destruct (getDetails cb f) as [details|e1|e1] eqn:H1;
    destruct (getData cb f) as [d|e2|e2] eqn:H2;
    destruct (appendConfigToFqbn cb f) as [fq|e3|e3] eqn:H3.
  1: { rewrite (run_fetched _ _ _ _ _ _ _ _ Hs Hf H1 H2 H3). simpl.
       destruct details as [details|]; simpl; [|leaf s0 e0 p0].
       destruct (truthy fq) as [fq'|] eqn:Hfq; simpl; [|leaf s0 e0 p0].
       destruct (BoardsDataStore.Data.selectedProgrammer d) as [p|] eqn:Hp;
         simpl; [|leaf s0 e0 p0].
       unfold Spec.cliStage.
       destruct (checkDebugEnabled cb _) as [[]|e|e]; simpl;
         [leaf s0 e0 p0| |];
         destruct (isSketchNotVerifiedError cb (Raised e) s) as [[|]|e'|e'];
         simpl; leaf s0 e0 p0. }
  all: unfold run, isDebugEnabled; rewrite Hs, Hf; unfold bind, invoke.
  all: rewrite ?H1, ?H2, ?H3; simpl.
  all: try destruct details as [details|]; simpl.
  all: try destruct (truthy fq) as [fq'|]; simpl.
  all: try destruct (BoardsDataStore.Data.selectedProgrammer d) as [p|]; simpl.
  all: leaf s0 e0 p0.
Qed.

(** C2.  Each failure has its message: [noSketchOpened] when the
    current sketch is undefined or not a valid sketch;
    [noBoardSelected] when the board is undefined;
    [noPlatformInstalledFor(board.name)] when the board's FQBN is
    undefined and when [getDetails] yields undefined; the message
    "Failed to append boards config to the FQBN" when
    [appendConfigToFqbn] yields undefined (the text of the source,
    followed by the original FQBN);
    [noProgrammerSelectedFor(board.name)] when the data has no
    selected programmer; [sketchIsNotCompiled(sketch.name)] when
    [checkDebugEnabled] throws and [isSketchNotVerifiedError] answers
    true for the error; [debuggingNotSupported(board.name)] when it
    throws and the answer is false.  Each failure is taken with the
    earlier checks passed and, after the third check, with the
    combined fetches completed.  The four message functions are the
    localized messages of the source, by key and default text. *)
Theorem isDebugEnabled_error_messages sketch board cb :
  let completion := (run sketch board cb).1 in
  (sketch = None \/ sketch = Some Invalid ->
     completion = Abrupt (NewError noSketchOpened)) /\
  (forall s, sketch = Some (Opened s) ->
     (board = None -> completion = Abrupt (NewError noBoardSelected)) /\
     (forall b, board = Some b ->
        (BoardIdentifier.fqbn b = None ->
           completion =
             Abrupt (NewError (noPlatformInstalledFor (BoardIdentifier.name b)))) /\
        (forall f details d fq,
           truthy (BoardIdentifier.fqbn b) = Some f ->
           getDetails cb f = Returns details ->
           getData cb f = Returns d ->
           appendConfigToFqbn cb f = Returns fq ->
           (details = None ->
              completion =
                Abrupt (NewError (noPlatformInstalledFor (BoardIdentifier.name b)))) /\
           (is_Some details -> fq = None ->
              completion =
                Abrupt (NewError
                          ("Failed to append boards config to the FQBN. Original FQBN was: "
                           +:+ f))) /\
           (is_Some details -> is_Some (truthy fq) ->
              BoardsDataStore.Data.selectedProgrammer d = None ->
              completion =
                Abrupt (NewError (noProgrammerSelectedFor (BoardIdentifier.name b)))) /\
           (forall fq' p e,
              is_Some details -> truthy fq = Some fq' ->
              BoardsDataStore.Data.selectedProgrammer d = Some p ->
              let params :=
                {| CheckDebugEnabledParams.fqbn := fq';
                   CheckDebugEnabledParams.programmer := Programmer.id p;
                   CheckDebugEnabledParams.sketchUri := Sketch.uri s |} in
              checkDebugEnabled cb params = Throws e \/
              checkDebugEnabled cb params = Rejects e ->
              (isSketchNotVerifiedError cb (Raised e) s = Returns true ->
                 completion =
                   Abrupt (NewError (sketchIsNotCompiled (Sketch.name s)))) /\
              (isSketchNotVerifiedError cb (Raised e) s = Returns false ->
                 completion =
                   Abrupt (NewError
                             (debuggingNotSupported (BoardIdentifier.name b)))))))) /\
  (forall n,
     sketchIsNotCompiled n =
       localize "arduino/debug/sketchIsNotCompiled"
                "Sketch '{0}' must be verified before starting a debug session" [n] /\
     noPlatformInstalledFor n =
       localize "arduino/debug/noPlatformInstalledFor"
                "Platform is not installed for '{0}'" [n] /\
     debuggingNotSupported n =
       localize "arduino/debug/debuggingNotSupported"
                "Debugging is not supported by '{0}'" [n] /\
     noProgrammerSelectedFor n =
       localize "arduino/debug/noProgrammerSelectedFor"
                "No programmer selected for '{0}'" [n]).
Proof.
  cbv zeta. split; [|split; [|by intros n]].
  - intros [-> | ->]; by rewrite run_invalid.
  - intros s ->. split; [intros ->; by erewrite run_no_board|].
    intros b ->. split.
    + intros Hnone. erewrite run_no_fqbn; [reflexivity..|].
      by rewrite Hnone.
    + intros f details d fq Hf H1 H2 H3.
      rewrite (run_fetched (Some (Opened s)) cb s b f details d fq eq_refl Hf H1 H2 H3).
      split; [by intros ->|].
      split; [by intros [x ->] ->|].
      split; [by intros [x ->] [y ->] ->|].
      intros fq' p e [x ->] -> -> Hthrows. unfold Spec.cliStage.
      destruct Hthrows as [-> | ->]; split; by intros ->.
Qed.

(** C3 (amended).  [isDebugEnabled] resolves if and only if the
    current sketch is valid, a board is selected whose FQBN is defined
    and not the empty string, [getDetails] returns board details,
    [appendConfigToFqbn] returns a decorated FQBN that is not the
    empty string, the data [getData] returns has a selected
    programmer, and [checkDebugEnabled] resolves for the parameters
    made of the decorated FQBN, the id of the selected programmer and
    the URI of the sketch.  On that path the callbacks invoked are
    the three fetches and then [checkDebugEnabled], once, with these
    parameters. *)
Theorem isDebugEnabled_resolves_iff sketch board cb :
  let conditions s b f (details : BoardDetails.t) fq d p :=
    CurrentSketch_isValid sketch = Some s /\
    board = Some b /\ BoardIdentifier.fqbn b = Some f /\ f <> "" /\
    getDetails cb f = Returns (Some details) /\
    appendConfigToFqbn cb f = Returns (Some fq) /\ fq <> "" /\
    getData cb f = Returns d /\
    BoardsDataStore.Data.selectedProgrammer d = Some p /\
    checkDebugEnabled cb
      {| CheckDebugEnabledParams.fqbn := fq;
         CheckDebugEnabledParams.programmer := Programmer.id p;
         CheckDebugEnabledParams.sketchUri := Sketch.uri s |} = Returns tt in
  ((run sketch board cb).1 = Normal tt <->
     exists s b f details fq d p, conditions s b f details fq d p) /\
  (forall s b f details fq d p,
     conditions s b f details fq d p ->
     (run sketch board cb).2 =
       [CallGetDetails f; CallGetData f; CallAppendConfigToFqbn f;
        CallCheckDebugEnabled
          {| CheckDebugEnabledParams.fqbn := fq;
             CheckDebugEnabledParams.programmer := Programmer.id p;
             CheckDebugEnabledParams.sketchUri := Sketch.uri s |}]).
Proof.
  cbv zeta.
  assert (Hrun : forall s b f (details : BoardDetails.t) fq d p,
    CurrentSketch_isValid sketch = Some s /\
    board = Some b /\ BoardIdentifier.fqbn b = Some f /\ f <> "" /\
    getDetails cb f = Returns (Some details) /\
    appendConfigToFqbn cb f = Returns (Some fq) /\ fq <> "" /\
    getData cb f = Returns d /\
    BoardsDataStore.Data.selectedProgrammer d = Some p /\
    checkDebugEnabled cb
      {| CheckDebugEnabledParams.fqbn := fq;
         CheckDebugEnabledParams.programmer := Programmer.id p;
         CheckDebugEnabledParams.sketchUri := Sketch.uri s |} = Returns tt ->
    run sketch board cb =
      (Normal tt,
       [CallGetDetails f; CallGetData f; CallAppendConfigToFqbn f;
        CallCheckDebugEnabled
          {| CheckDebugEnabledParams.fqbn := fq;
             CheckDebugEnabledParams.programmer := Programmer.id p;
             CheckDebugEnabledParams.sketchUri := Sketch.uri s |}])).
  { intros s b f details fq d p
      (Hs & -> & Hb & Hne & H1 & H3 & Hfq & H2 & Hp & Hc).
    assert (Hf : truthy (BoardIdentifier.fqbn b) = Some f)
      by (apply BoardsDataStoreProofs.truthy_Some; auto).
    assert (Hfq' : truthy (Some fq) = Some fq)
      by (apply BoardsDataStoreProofs.truthy_Some; auto).
    rewrite (run_fetched _ _ _ _ _ _ _ _ Hs Hf H1 H2 H3), Hfq', Hp.
    unfold Spec.cliStage. rewrite Hc. reflexivity. }
  split; [split|].
  - destruct (CurrentSketch_isValid sketch) as [s|] eqn:Hs;
      [|by rewrite run_invalid].
    destruct board as [b|]; [|by erewrite run_no_board].
    destruct (truthy (BoardIdentifier.fqbn b)) as [f|] eqn:Hf;
      [|by erewrite run_no_fqbn].
    destruct (Spec.fetchesSettle (Some b) cb) eqn:Hsettle.
    + unfold Spec.fetchesSettle, Spec.presentFqbn in Hsettle.
      rewrite Hf in Hsettle.
      destruct (getDetails cb f) as [details|e1|e1] eqn:H1; try discriminate.
      destruct (getData cb f) as [d|e2|e2] eqn:H2; try discriminate.
      destruct (appendConfigToFqbn cb f) as [fq|e3|e3] eqn:H3; try discriminate.
      rewrite (run_fetched _ _ _ _ _ _ _ _ Hs Hf H1 H2 H3).
      destruct details as [details|]; [|discriminate].
      destruct (truthy fq) as [fq'|] eqn:Hfq; [|discriminate].
      destruct (BoardsDataStore.Data.selectedProgrammer d) as [p|] eqn:Hp;
        [|discriminate].
      unfold Spec.cliStage.
      destruct (checkDebugEnabled cb _) as [[]|e|e] eqn:Hc; simpl.
      * intros _. apply BoardsDataStoreProofs.truthy_Some in Hf as [Hb Hne].
        apply BoardsDataStoreProofs.truthy_Some in Hfq as [-> Hfq].
        exists s, b, f, details, fq', d, p. repeat split; auto.
      * destruct (isSketchNotVerifiedError cb _ s) as [[|]|e'|e']; discriminate.
      * destruct (isSketchNotVerifiedError cb _ s) as [[|]|e'|e']; discriminate.
    + destruct (run_unsettled _ _ _ _ _ Hs Hf Hsettle) as (t & k & -> & _).
      discriminate.
  - intros (s & b & f & details & fq & d & p & Hc).
    by rewrite (Hrun _ _ _ _ _ _ _ Hc).
  - intros s b f details fq d p Hc.
    by rewrite (Hrun _ _ _ _ _ _ _ Hc).
Qed.
End WithCallbacks.

(** C10.  [compileForDebug] is true exactly when the value stored
    under the key [arduino-compile-for-debug] is the string "true";
    every call of [toggleCompileForDebug] negates it, so that two
    consecutive calls restore its value. *)
Theorem toggleCompileForDebug_involution (w : Window) :
  (compileForDebug w = true <->
     localStorage w !! "arduino-compile-for-debug" = Some "true") /\
  compileForDebug (toggleCompileForDebug w) = negb (compileForDebug w) /\
  compileForDebug (toggleCompileForDebug (toggleCompileForDebug w))
    = compileForDebug w.
Proof.
  assert (Hneg : forall w', compileForDebug (toggleCompileForDebug w')
                            = negb (compileForDebug w')).
  { intros w'. unfold toggleCompileForDebug.
    unfold compileForDebug at 1. simpl. rewrite lookup_insert_eq.
    destruct (compileForDebug w'); reflexivity. }
  split; [|split].
  - unfold compileForDebug, COMPILE_FOR_DEBUG_KEY. simpl.
    apply bool_decide_eq_true.
  - apply Hneg.
  - rewrite !Hneg. apply negb_involutive.
Qed.

(** *** The claims at concrete inputs *)

Import Fixtures.

(** C3, as stated, at a selected board whose FQBN is the empty
    string: every condition the specification lists holds, and the call
    is rejected. *)
Lemma isDebugEnabled_empty_fqbn_rejected :
  Spec.conditionsAsStated (Some (Opened sketch)) (Some blank) answering /\
  run (Some (Opened sketch)) (Some blank) answering
    = (Abrupt (NewError "Platform is not installed for 'ABC'"), []).
Proof.
  split; [|reflexivity].
  exists sketch, blank, "", boardDetails, "a:b:c", data, p1.
  repeat split.
Qed.

(** C1 at the test without a selected programmer: the first failing
    check is the sixth, and the call is rejected with its message. *)
Lemma isDebugEnabled_checks_in_order_witness :
  (run (Some (Opened sketch)) (Some Fixtures.board) noProgrammer).1
    = Abrupt (NewError "No programmer selected for 'ABC'").
Proof.
  pose proof (isDebugEnabled_checks_in_order
                (Some (Opened sketch)) (Some Fixtures.board) noProgrammer)
    as [Hfirst _].
  change (Spec.firstFailing (Some (Opened sketch)) (Some Fixtures.board) noProgrammer)
    with (Some Spec.ProgrammerIsSelected) in Hfirst.
  destruct Hfirst as (_ & _ & Hmessage).
  exact (Hmessage _ eq_refl (or_intror eq_refl)).
Defined.

(** C2 at the test of the sketch that is not verified, and with
    callbacks whose [appendConfigToFqbn] yields undefined. *)
Lemma isDebugEnabled_error_messages_witness :
  (run (Some (Opened sketch)) (Some Fixtures.board) notVerified).1
    = Abrupt (NewError
                "Sketch 'My_Sketch' must be verified before starting a debug session") /\
  (run (Some (Opened sketch)) (Some Fixtures.board) noConfig).1
    = Abrupt (NewError
                "Failed to append boards config to the FQBN. Original FQBN was: a:b:c").
Proof.
  split.
  - destruct (isDebugEnabled_error_messages
                (Some (Opened sketch)) (Some Fixtures.board) notVerified)
      as (_ & Hvalid & _).
    destruct (Hvalid sketch eq_refl) as [_ Hboard].
    destruct (Hboard Fixtures.board eq_refl) as [_ Hfetched].
    destruct (Hfetched "a:b:c" (Some boardDetails) data (Some "a:b:c")
                eq_refl eq_refl eq_refl eq_refl) as (_ & _ & _ & Hcli).
    destruct (Hcli "a:b:c" p1 "sketch is not verifier"
                (ex_intro _ boardDetails eq_refl) eq_refl eq_refl
                (or_introl eq_refl)) as [Htrue _].
    exact (Htrue eq_refl).
  - destruct (isDebugEnabled_error_messages
                (Some (Opened sketch)) (Some Fixtures.board) noConfig)
      as (_ & Hvalid & _).
    destruct (Hvalid sketch eq_refl) as [_ Hboard].
    destruct (Hboard Fixtures.board eq_refl) as [_ Hfetched].
    destruct (Hfetched "a:b:c" (Some boardDetails) data None
                eq_refl eq_refl eq_refl eq_refl) as (_ & Happend & _).
    exact (Happend (ex_intro _ boardDetails eq_refl) eq_refl).
Defined.

(** C3 at the test that resolves. *)
Lemma isDebugEnabled_resolves_iff_witness :
  (run (Some (Opened sketch)) (Some Fixtures.board) supported).1 = Normal tt.
Proof.
  destruct (isDebugEnabled_resolves_iff
              (Some (Opened sketch)) (Some Fixtures.board) supported)
    as [[_ Hresolves] _].
  apply Hresolves.
  exists sketch, Fixtures.board, "a:b:c", boardDetails, "a:b:c", data, p1.
  repeat split; discriminate.
Defined.

(** The cases of the test suite. *)
Example test_sketch_not_opened :
  run None (Some Fixtures.board) failing = (Abrupt (NewError noSketchOpened), []).
Proof. reflexivity. Qed.

Example test_not_a_valid_sketch :
  run (Some Invalid) (Some Fixtures.board) failing
    = (Abrupt (NewError noSketchOpened), []).
Proof. reflexivity. Qed.

Example test_no_board_selected :
  run (Some (Opened sketch)) None failing = (Abrupt (NewError noBoardSelected), []).
Proof. reflexivity. Qed.

Example test_fqbn_undefined :
  run (Some (Opened sketch))
      (Some {| BoardIdentifier.name := Fixtures.name; BoardIdentifier.fqbn := None |})
      failing
    = (Abrupt (NewError (noPlatformInstalledFor Fixtures.name)), []).
Proof. reflexivity. Qed.

Example test_board_details_not_available :
  run (Some (Opened sketch)) (Some Fixtures.board) noDetails
    = (Abrupt (NewError (noPlatformInstalledFor Fixtures.name)),
       [CallGetDetails "a:b:c"; CallGetData "a:b:c"; CallAppendConfigToFqbn "a:b:c"]).
Proof. reflexivity. Qed.

Example test_no_programmer_selected :
  run (Some (Opened sketch)) (Some Fixtures.board) noProgrammer
    = (Abrupt (NewError (noProgrammerSelectedFor Fixtures.name)),
       [CallGetDetails "a:b:c"; CallGetData "a:b:c"; CallAppendConfigToFqbn "a:b:c"]).
Proof. reflexivity. Qed.

Example test_sketch_not_verified :
  (run (Some (Opened sketch)) (Some Fixtures.board) notVerified).1
    = Abrupt (NewError (sketchIsNotCompiled "My_Sketch")).
Proof. reflexivity. Qed.

Example test_cli_fails :
  (run (Some (Opened sketch)) (Some Fixtures.board) unsupported).1
    = Abrupt (NewError (debuggingNotSupported Fixtures.name)).
Proof. reflexivity. Qed.

Example test_resolves_when_supported :
  run (Some (Opened sketch)) (Some Fixtures.board) supported
    = (Normal tt,
       [CallGetDetails "a:b:c"; CallGetData "a:b:c"; CallAppendConfigToFqbn "a:b:c";
        CallCheckDebugEnabled
          {| CheckDebugEnabledParams.fqbn := "a:b:c";
             CheckDebugEnabledParams.programmer := "p1";
             CheckDebugEnabledParams.sketchUri := "file:///path/to/mySketch/" |}]).
Proof. reflexivity. Qed.
End DebugProofs.

(** ** Further properties of the board data store *)

Module BoardsDataStoreLaws.
Import BoardsDataStore BoardsDataStoreLifecycle.
Local Open Scope store_scope.

(** Different boards have different storage keys. *)
Lemma getStorageKey_inj (f g : string) :
  getStorageKey f = getStorageKey g -> f = g.
Proof. unfold getStorageKey. simpl. intros H. by simplify_eq. Qed.

Section WithServices.
Context {Err : Type} `{!BoardsService Err} `{!ProtocolHelpers}.

Lemma truthy_idem (fqbn : option string) (f : string) :
  truthy fqbn = Some f -> truthy (Some f) = Some f.
Proof.
  intros Hf. apply BoardsDataStoreProofs.truthy_Some in Hf as [_ Hne].
  by apply BoardsDataStoreProofs.truthy_Some.
Qed.

(** A value that is not [Data.EMPTY] was read from the storage or
    written to it. *)
Lemma getData_nonempty (fqbn : option string) (st : Store) :
  (getData fqbn st).1 <> Data.EMPTY ->
  exists f, fqbn = Some f /\ f <> "" /\
    storage (getData fqbn st).2 !! getStorageKey f
      = Some (toStored (getData fqbn st).1).
Proof.
  intros Hne. destruct (truthy fqbn) as [f|] eqn:Hf.
  - apply BoardsDataStoreProofs.truthy_Some in Hf as [-> Hf].
    exists f. repeat split; auto.
    destruct (BoardsDataStoreProofs.getData_stored f st) as [He|Hs]; [|exact Hs].
    contradiction.
  - rewrite BoardsDataStoreProofs.getData_falsy in Hne by done. contradiction.
Qed.

(** What [getData] needs of the state is the storage under the key. *)
Lemma getData_stored_hit (f : string) (d : Data.t) (st : Store) :
  f <> "" ->
  storage st !! getStorageKey f = Some (toStored d) ->
  getData (Some f) st = (d, st).
Proof.
  intros Hne Hst.
  assert (Ht : truthy (Some f) = Some f)
    by (apply BoardsDataStoreProofs.truthy_Some; auto).
  rewrite (BoardsDataStoreProofs.getData_hit _ _ _ Ht); rewrite Hst.
  - by rewrite BoardsDataStoreProofs.asData_toStored.
  - apply BoardsDataStoreProofs.Data_is_toStored.
Qed.

(** [getData] writes under the key of its FQBN only. *)
Lemma getData_other_keys (fqbn : option string) (st : Store) (k : string) :
  (forall f, fqbn = Some f -> k <> getStorageKey f) ->
  storage (getData fqbn st).2 !! k = storage st !! k.
Proof.
  intros Hk. destruct (truthy fqbn) as [f|] eqn:Hf.
  - destruct (Data_is (storage st !! getStorageKey f)) eqn:His.
    + by rewrite (BoardsDataStoreProofs.getData_hit _ _ _ Hf His).
    + rewrite (BoardsDataStoreProofs.getData_miss _ _ _ Hf His).
      destruct (BoardsDataStoreProofs.loadBoardDetails_frame f st) as (Hs & _ & _).
      destruct (loadBoardDetails f st).1; simpl; rewrite <- Hs; [|done].
      apply lookup_insert_ne. apply BoardsDataStoreProofs.truthy_Some in Hf as [-> _].
      intros <-. by apply (Hk f).
  - by rewrite BoardsDataStoreProofs.getData_falsy.
Qed.

(** The value [getData] returns, and the storage it leaves, depend on
    the storage only. *)
Lemma getData_storage (fqbn : option string) (st st' : Store) :
  storage st = storage st' ->
  (getData fqbn st).1 = (getData fqbn st').1 /\
  storage (getData fqbn st).2 = storage (getData fqbn st').2.
Proof.
  intros Heq. destruct (truthy fqbn) as [f|] eqn:Hf.
  - destruct (Data_is (storage st !! getStorageKey f)) eqn:His.
    + rewrite (BoardsDataStoreProofs.getData_hit _ _ _ Hf His).
      rewrite Heq in His.
      rewrite (BoardsDataStoreProofs.getData_hit _ _ _ Hf His). simpl.
      by rewrite Heq.
    + rewrite (BoardsDataStoreProofs.getData_miss _ _ _ Hf His).
      rewrite Heq in His.
      rewrite (BoardsDataStoreProofs.getData_miss _ _ _ Hf His).
      rewrite !BoardsDataStoreProofs.loadBoardDetails_value.
      destruct (BoardsDataStoreProofs.loadBoardDetails_frame f st) as (Hs & _ & _).
      destruct (BoardsDataStoreProofs.loadBoardDetails_frame f st') as (Hs' & _ & _).
      destruct (getBoardDetails f) as [[details|]|e|e]; simpl;
        rewrite ?Hs, ?Hs', Heq; done.
  - by rewrite !BoardsDataStoreProofs.getData_falsy.
Qed.

(** X1.  Once [getData] has returned data other than [Data.EMPTY], the
    data is in the cache: calling [getData] again for the same FQBN
    returns the same data and changes nothing (no request for board
    details, no write, no event). *)
Theorem getData_second_call_hits (fqbn : option string) (st : Store) :
  (getData fqbn st).1 <> Data.EMPTY ->
  getData fqbn (getData fqbn st).2 = getData fqbn st.
Proof.
  intros Hne. destruct (getData_nonempty fqbn st Hne) as (f & -> & Hf & Hst).
  rewrite (getData_stored_hit f _ _ Hf Hst).
  by destruct (getData (Some f) st).
Qed.

(** X2.  A failed load is not cached.  When nothing acceptable is
    stored for a non-empty FQBN and the boards service gives no details
    (it returns undefined, throws or rejects), [getData] returns
    [Data.EMPTY], sends one request, leaves the storage and the emitter
    alone, and logs one entry exactly when the service failed; the next
    [getData] sends the request again. *)
Theorem getData_failure_not_cached (f : string) (st : Store) :
  f <> "" ->
  Data_is (storage st !! getStorageKey f) = false ->
  (forall details, getBoardDetails f <> Returns (Some details)) ->
  let st1 := (getData (Some f) st).2 in
  (getData (Some f) st).1 = Data.EMPTY /\
  storage st1 = storage st /\ fired st1 = fired st /\
  requested st1 = requested st ++ [f] /\
  (getBoardDetails f = Returns None -> logged st1 = logged st) /\
  (forall e, getBoardDetails f = Throws e \/ getBoardDetails f = Rejects e ->
     exists entry, logged st1 = logged st ++ [entry]) /\
  requested (getData (Some f) st1).2 = requested st ++ [f; f].
Proof.
  intros Hne Miss Hno. cbv zeta.
  assert (Ht : truthy (Some f) = Some f)
    by (apply BoardsDataStoreProofs.truthy_Some; auto).
  assert (Hone : forall st0, Data_is (storage st0 !! getStorageKey f) = false ->
            getData (Some f) st0 = (Data.EMPTY, (loadBoardDetails f st0).2)).
  { intros st0 Miss0. rewrite (BoardsDataStoreProofs.getData_miss _ _ _ Ht Miss0).
    rewrite BoardsDataStoreProofs.loadBoardDetails_value.
    destruct (getBoardDetails f) as [[details|]|e|e] eqn:Hg; try reflexivity.
    by destruct (Hno details). }
  rewrite (Hone st Miss). simpl.
  destruct (BoardsDataStoreProofs.loadBoardDetails_frame f st) as (Hs & Hfi & Hr).
  repeat (split; [done|]). split; [|split].
  - intros Hg. unfold loadBoardDetails, bind, boardsService_getBoardDetails.
    by rewrite Hg.
  - intros e Hg. unfold loadBoardDetails, bind, boardsService_getBoardDetails.
    destruct Hg as [-> | ->]; simpl;
      (destruct (errorMessage e) as [m|]; [destruct (_ && _)|]; simpl; eauto).
  - rewrite Hone by (by rewrite Hs). simpl.
    destruct (BoardsDataStoreProofs.loadBoardDetails_frame f (loadBoardDetails f st).2)
      as (_ & _ & Hr').
    rewrite Hr', Hr, <- app_assoc. reflexivity.
Qed.

(** X3.  A selected programmer is read back.  After a successful
    [selectProgrammer], [getData] for the same FQBN returns the data with
    the given programmer selected, without a request or a write, and the
    one event fired by the call carries exactly that data. *)
Theorem selectProgrammer_read_back
    (fqbn : string) (selectedProgrammer : Programmer.t) (st : Store) :
  (selectProgrammer fqbn selectedProgrammer st).1 = true ->
  let d := Spec.withProgrammer (getData (Some fqbn) st).1 selectedProgrammer in
  let st2 := (selectProgrammer fqbn selectedProgrammer st).2 in
  getData (Some fqbn) st2 = (d, st2) /\
  fired st2 = fired st ++ [{| changes := [{| fqbn := fqbn; data := d |}] |}].
Proof.
  cbv zeta. rewrite BoardsDataStoreProofs.selectProgrammer_run. cbv zeta.
  destruct (existsb _ _) eqn:Hmem; simpl; [intros _|discriminate].
  assert (Hne : (getData (Some fqbn) st).1 <> Data.EMPTY).
  { intros He. rewrite He in Hmem. discriminate. }
  destruct (getData_nonempty _ st Hne) as (f & [= <-] & Hf & _).
  split.
  - apply getData_stored_hit; [done|]. apply lookup_insert_eq.
  - by rewrite BoardsDataStoreProofs.getData_frame_fired.
Qed.

(** Calling [getData] a second time: the same value, and the storage
    stays as the first call left it. *)
Lemma getData_again (fqbn : option string) (st : Store) :
  (getData fqbn (getData fqbn st).2).1 = (getData fqbn st).1 /\
  storage (getData fqbn (getData fqbn st).2).2 = storage (getData fqbn st).2.
Proof.
  destruct (truthy fqbn) as [f|] eqn:Hf.
  - destruct (Data_is (storage st !! getStorageKey f)) eqn:His.
    + by rewrite !(BoardsDataStoreProofs.getData_hit _ _ _ Hf His).
    + pose proof (BoardsDataStoreProofs.getData_miss _ _ _ Hf His) as Hmiss.
      rewrite BoardsDataStoreProofs.loadBoardDetails_value in Hmiss.
      destruct (BoardsDataStoreProofs.loadBoardDetails_frame f st) as (Hs & _ & _).
      apply BoardsDataStoreProofs.truthy_Some in Hf as [-> Hne].
      destruct (getBoardDetails f) as [[details|]|e|e] eqn:Hg.
      * rewrite Hmiss.
        rewrite (getData_stored_hit f (createDataStoreEntry details));
          [done|done|apply lookup_insert_eq].
      * rewrite Hmiss. rewrite <- Hmiss.
        destruct (getData_storage (Some f) (loadBoardDetails f st).2 st Hs)
          as [Hv Hst]. rewrite Hmiss in Hv, Hst. rewrite Hmiss. simpl in *.
        by rewrite Hv, Hst.
      * rewrite Hmiss. rewrite <- Hmiss.
        destruct (getData_storage (Some f) (loadBoardDetails f st).2 st Hs)
          as [Hv Hst]. rewrite Hmiss in Hv, Hst. rewrite Hmiss. simpl in *.
        by rewrite Hv, Hst.
      * rewrite Hmiss. rewrite <- Hmiss.
        destruct (getData_storage (Some f) (loadBoardDetails f st).2 st Hs)
          as [Hv Hst]. rewrite Hmiss in Hv, Hst. rewrite Hmiss. simpl in *.
        by rewrite Hv, Hst.
  - by rewrite !BoardsDataStoreProofs.getData_falsy.
Qed.

(** The value [getData] returns for a board depends on what is stored
    under the key of that board only. *)
Lemma getData_value_key (g : string) (st st' : Store) :
  storage st !! getStorageKey g = storage st' !! getStorageKey g ->
  (getData (Some g) st).1 = (getData (Some g) st').1.
Proof.
  intros Heq. destruct (truthy (Some g)) as [f|] eqn:Hf.
  - pose proof Hf as Hf'.
    apply BoardsDataStoreProofs.truthy_Some in Hf' as [[= <-] _].
    destruct (Data_is (storage st !! getStorageKey g)) eqn:His.
    + rewrite (BoardsDataStoreProofs.getData_hit _ _ _ Hf His).
      rewrite Heq in His.
      rewrite (BoardsDataStoreProofs.getData_hit _ _ _ Hf His). simpl.
      by rewrite Heq.
    + rewrite (BoardsDataStoreProofs.getData_miss _ _ _ Hf His).
      rewrite Heq in His.
      rewrite (BoardsDataStoreProofs.getData_miss _ _ _ Hf His).
      rewrite !BoardsDataStoreProofs.loadBoardDetails_value.
      by destruct (getBoardDetails g) as [[details|]|e|e].
  - by rewrite !BoardsDataStoreProofs.getData_falsy.
Qed.

(** The storage after [selectProgrammer] and after [selectConfigOption]:
    one write under the key of the FQBN, or none. *)
Lemma selectProgrammer_storage
    (fqbn : string) (selectedProgrammer : Programmer.t) (st : Store) :
  let d := (getData (Some fqbn) st).1 in
  storage (selectProgrammer fqbn selectedProgrammer st).2 =
    if (selectProgrammer fqbn selectedProgrammer st).1
    then <[getStorageKey fqbn := toStored (Spec.withProgrammer d selectedProgrammer)]>
           (storage (getData (Some fqbn) st).2)
    else storage (getData (Some fqbn) st).2.
Proof.
  cbv zeta. rewrite BoardsDataStoreProofs.selectProgrammer_run. cbv zeta.
  by destruct (existsb _ _).
Qed.

Lemma selectConfigOption_storage
    (fqbn option' selectedValue : string) (st : Store) :
  exists d',
    storage (selectConfigOption fqbn option' selectedValue st).2 =
      if (selectConfigOption fqbn option' selectedValue st).1
      then <[getStorageKey fqbn := toStored d']> (storage (getData (Some fqbn) st).2)
      else storage (getData (Some fqbn) st).2.
Proof.
  rewrite BoardsDataStoreProofs.selectConfigOption_run. cbv zeta.
  destruct (findOption _ _ _) as [[i c]|]; [|by exists Data.EMPTY].
  destruct (Spec.offers _ _); [eexists; reflexivity|by exists Data.EMPTY].
Qed.

(** X4.  What is done for one board does not reach another: after
    [getData], [selectProgrammer] or [selectConfigOption] for the FQBN
    [f], [getData] for a different FQBN [g] returns what it would have
    returned before. *)
Theorem boards_are_isolated
    (f g : string) (p : Programmer.t) (option' selectedValue : string) (st : Store) :
  f <> g ->
  (getData (Some g) (getData (Some f) st).2).1 = (getData (Some g) st).1 /\
  (getData (Some g) (selectProgrammer f p st).2).1 = (getData (Some g) st).1 /\
  (getData (Some g) (selectConfigOption f option' selectedValue st).2).1
    = (getData (Some g) st).1.
Proof.
  intros Hfg.
  assert (Hkey : getStorageKey f <> getStorageKey g)
    by (intros Hk; by apply getStorageKey_inj in Hk).
  assert (Hget : storage (getData (Some f) st).2 !! getStorageKey g
                 = storage st !! getStorageKey g).
  { apply getData_other_keys. intros f' [= <-]. done. }
  split; [|split]; apply getData_value_key.
  - exact Hget.
  - rewrite selectProgrammer_storage. cbv zeta.
    destruct (selectProgrammer f p st).1; [|exact Hget].
    by rewrite lookup_insert_ne.
  - destruct (selectConfigOption_storage f option' selectedValue st) as [d' ->].
    destruct (selectConfigOption f option' selectedValue st).1; [|exact Hget].
    by rewrite lookup_insert_ne.
Qed.

Lemma selectOnly_idem (v : string) (values : list ConfigValue.t) :
  Spec.selectOnly v (Spec.selectOnly v values) = Spec.selectOnly v values.
Proof.
  unfold Spec.selectOnly. induction values as [|x values IH]; simpl; [done|].
  by rewrite IH.
Qed.

Lemma offers_selectOnly (v : string) (c : ConfigOption.t) :
  Spec.offers v (Spec.withValues c (Spec.selectOnly v (ConfigOption.values c)))
    = Spec.offers v c.
Proof.
  unfold Spec.offers, Spec.withValues, Spec.selectOnly. simpl.
  induction (ConfigOption.values c) as [|x values IH]; simpl; [done|].
  by rewrite IH.
Qed.

(** Replacing the values of the option [find] returns does not change
    which option [find] returns. *)
Lemma findOption_update (cs : list ConfigOption.t) (o : string) (i n : nat)
    (c : ConfigOption.t) (values : list ConfigValue.t) :
  findOption cs o i = Some (i + n, c) ->
  findOption (<[n := Spec.withValues c values]> cs) o i
    = Some (i + n, Spec.withValues c values).
Proof.
  revert i n. induction cs as [|c0 cs IH]; intros i n; simpl; [done|].
  case_bool_decide as Hc.
  - intros [= Hn <-]. assert (n = 0) as -> by lia. simpl.
    rewrite bool_decide_eq_true_2 by done. by rewrite Nat.add_0_r.
  - intros Hf. pose proof Hf as Hf'.
    apply BoardsDataStoreProofs.findOption_Some in Hf' as (m & Hm & _).
    destruct n as [|n]; [lia|]. simpl.
    rewrite bool_decide_eq_false_2 by done.
    replace (i + S n) with (S i + n) in * by lia. by apply IH.
Qed.

(** A successful [selectConfigOption], spelled out. *)
Lemma selectConfigOption_success
    (fqbn option' selectedValue : string) (st : Store) :
  (selectConfigOption fqbn option' selectedValue st).1 = true ->
  exists n c,
    findOption (Data.configOptions (getData (Some fqbn) st).1) option' 0 = Some (n, c) /\
    Data.configOptions (getData (Some fqbn) st).1 !! n = Some c /\
    Spec.offers selectedValue c = true /\
    (selectConfigOption fqbn option' selectedValue st).2 =
      Spec.persisted fqbn
        (Spec.withOption (getData (Some fqbn) st).1 n
           (Spec.withValues c (Spec.selectOnly selectedValue (ConfigOption.values c))))
        (getData (Some fqbn) st).2.
Proof.
  rewrite BoardsDataStoreProofs.selectConfigOption_run. cbv zeta.
  destruct (findOption _ _ _) as [[i c]|] eqn:Hfind; [|discriminate].
  destruct (Spec.offers selectedValue c) eqn:Hoff; [intros _|discriminate].
  pose proof Hfind as Hfind'.
  apply BoardsDataStoreProofs.findOption_Some in Hfind' as (n & -> & Hn & _).
  exists n, c. auto.
Qed.

(** X5.  A selected config value is read back, and selecting it again
    changes nothing that is stored.  After a successful
    [selectConfigOption], [getData] for the same FQBN returns the data
    that was persisted, without a request or a write; the one event fired
    carries that data; and the same call once more succeeds and leaves
    the storage as it is. *)
Theorem selectConfigOption_read_back
    (fqbn option' selectedValue : string) (st : Store) :
  (selectConfigOption fqbn option' selectedValue st).1 = true ->
  let st2 := (selectConfigOption fqbn option' selectedValue st).2 in
  exists d',
    getData (Some fqbn) st2 = (d', st2) /\
    fired st2 = fired st ++ [{| changes := [{| fqbn := fqbn; data := d' |}] |}] /\
    (selectConfigOption fqbn option' selectedValue st2).1 = true /\
    storage (selectConfigOption fqbn option' selectedValue st2).2 = storage st2.
Proof.
  intros Hok. cbv zeta.
  destruct (selectConfigOption_success _ _ _ _ Hok) as (n & c & Hfind & Hn & Hoff & ->).
  set (d := (getData (Some fqbn) st).1) in *.
  set (st1 := (getData (Some fqbn) st).2) in *.
  set (c' := Spec.withValues c (Spec.selectOnly selectedValue (ConfigOption.values c))).
  set (d' := Spec.withOption d n c').
  assert (Hne : d <> Data.EMPTY).
  { intros He. rewrite He in Hn. discriminate. }
  destruct (getData_nonempty _ st Hne) as (f & [= <-] & Hf & _).
  assert (Hback : getData (Some fqbn) (Spec.persisted fqbn d' st1)
                  = (d', Spec.persisted fqbn d' st1)).
  { apply getData_stored_hit; [done|]. apply lookup_insert_eq. }
  exists d'. split; [exact Hback|]. split.
  { simpl. unfold st1. by rewrite BoardsDataStoreProofs.getData_frame_fired. }
  rewrite BoardsDataStoreProofs.selectConfigOption_run. cbv zeta.
  rewrite Hback. simpl.
  pose proof (findOption_update _ _ 0 n c
                (Spec.selectOnly selectedValue (ConfigOption.values c)) Hfind) as Hupd.
  fold c' in Hupd. rewrite Hupd. simpl.
  assert (Hoff' : Spec.offers selectedValue c' = true)
    by (unfold c'; by rewrite offers_selectOnly).
  rewrite Hoff'. simpl. split; [done|].
  rewrite insert_insert_eq. f_equal. f_equal. unfold Spec.withOption. simpl.
  f_equal. rewrite list_insert_insert_eq. f_equal.
  unfold c', Spec.withValues. simpl. by rewrite selectOnly_idem.
Qed.

(** X6.  [selectConfigOption] changes selection flags only.  On its
    success path the persisted data has the options of the data it read,
    with the same names, labels and values in the same order (all but the
    [selected] flags), at least one value of an option with the given
    name is selected, and the programmers, the selected programmer and
    the default programmer id are as they were; no other key of the
    storage changes. *)
Theorem selectConfigOption_flags_only
    (fqbn option' selectedValue : string) (st : Store) :
  (selectConfigOption fqbn option' selectedValue st).1 = true ->
  let shape (c : ConfigOption.t) :=
    (ConfigOption.option c, ConfigOption.label c,
     (fun v => (ConfigValue.label v, ConfigValue.value v)) <$> ConfigOption.values c) in
  let d := (getData (Some fqbn) st).1 in
  let st1 := (getData (Some fqbn) st).2 in
  let st2 := (selectConfigOption fqbn option' selectedValue st).2 in
  exists persisted : Data.t,
    storage st2 !! getStorageKey fqbn = Some (toStored persisted) /\
    shape <$> Data.configOptions persisted = shape <$> Data.configOptions d /\
    (exists c v, c ∈ Data.configOptions persisted /\
       ConfigOption.option c = option' /\ v ∈ ConfigOption.values c /\
       ConfigValue.value v = selectedValue /\ ConfigValue.selected v = true) /\
    Data.programmers persisted = Data.programmers d /\
    Data.selectedProgrammer persisted = Data.selectedProgrammer d /\
    Data.defaultProgrammerId persisted = Data.defaultProgrammerId d /\
    (forall k, k <> getStorageKey fqbn -> storage st2 !! k = storage st1 !! k).
Proof.
  intros Hok. cbv zeta.
  destruct (selectConfigOption_success _ _ _ _ Hok) as (n & c & Hfind & Hn & Hoff & ->).
  eexists. split; [apply lookup_insert_eq|].
  split; [|split; [|repeat split; auto]].
  - simpl. rewrite list_fmap_insert. apply list_insert_id.
    rewrite list_lookup_fmap, Hn. simpl. do 2 f_equal.
    unfold Spec.selectOnly. rewrite <- list_fmap_compose.
    by apply list_fmap_ext.
  - apply BoardsDataStoreProofs.findOption_Some in Hfind as (m & _ & _ & Ho & _).
    unfold Spec.offers in Hoff. apply existsb_exists in Hoff as (v & Hv & Hvs).
    apply bool_decide_eq_true in Hvs.
    exists (Spec.withValues c (Spec.selectOnly selectedValue (ConfigOption.values c))),
           {| ConfigValue.label := ConfigValue.label v;
              ConfigValue.value := ConfigValue.value v;
              ConfigValue.selected := true |}.
    repeat split; auto.
    + simpl. apply list_elem_of_lookup. exists n.
      apply list_lookup_insert_eq. by eapply lookup_lt_Some.
    + simpl. unfold Spec.selectOnly. apply list_elem_of_In, in_map_iff.
      exists v. split; [|done]. by rewrite Hvs, bool_decide_eq_true_2.
  - intros k Hk. simpl. by apply lookup_insert_ne.
Qed.

(** X7.  Selecting a programmer and selecting a config value for the
    same board commute: in either order each call returns the same
    result, and the storage ends up the same. *)
Theorem selections_commute
    (f : string) (p : Programmer.t) (option' selectedValue : string) (st : Store) :
  let a := selectProgrammer f p st in
  let ab := selectConfigOption f option' selectedValue a.2 in
  let b := selectConfigOption f option' selectedValue st in
  let ba := selectProgrammer f p b.2 in
  a.1 = ba.1 /\ ab.1 = b.1 /\ storage ab.2 = storage ba.2.
Proof.
  cbv zeta.
  destruct (getData_again (Some f) st) as [Hv1 Hs1].
  assert (Hpers : forall x, (getData (Some f) st).1 <> Data.EMPTY ->
            getData (Some f) (Spec.persisted f x (getData (Some f) st).2)
            = (x, Spec.persisted f x (getData (Some f) st).2)).
  { intros x Hne. destruct (getData_nonempty _ st Hne) as (f' & [= <-] & Hf & _).
    apply getData_stored_hit; [done|]. apply lookup_insert_eq. }
  rewrite (BoardsDataStoreProofs.selectProgrammer_run f p
             (selectConfigOption f option' selectedValue st).2).
  rewrite (BoardsDataStoreProofs.selectConfigOption_run f option' selectedValue
             (selectProgrammer f p st).2).
  rewrite (BoardsDataStoreProofs.selectProgrammer_run f p st).
  rewrite (BoardsDataStoreProofs.selectConfigOption_run f option' selectedValue st).
  cbv zeta.
  set (d := (getData (Some f) st).1) in *.
  set (st1 := (getData (Some f) st).2) in *.
  destruct (existsb (Programmer_equals p) (Data.programmers d)) eqn:Hmem;
    destruct (findOption (Data.configOptions d) option' 0) as [[i c]|] eqn:Hfind;
    [destruct (Spec.offers selectedValue c) eqn:Hoff| |
     destruct (Spec.offers selectedValue c) eqn:Hoff|]; simpl.
  all: try (assert (Hne : d <> Data.EMPTY)
              by (intros He; rewrite He in Hmem; discriminate)).
  all: try (assert (Hne : d <> Data.EMPTY)
              by (intros He; rewrite He in Hfind; discriminate)).
  all: rewrite ?Hpers by done; rewrite ?Hv1; simpl; rewrite ?Hfind, ?Hoff, ?Hmem; simpl.
  all: rewrite ?Hs1, ?insert_insert_eq; auto.
Qed.

Lemma find_never {A} (l : list A) : List.find (fun _ => false) l = None.
Proof. by induction l. Qed.

Lemma createDataStoreEntry_member (details : BoardDetails.t) :
  (forall p, Programmer_equals p p = true) ->
  Invariants.selectionIsMember (createDataStoreEntry details) = true.
Proof.
  intros Hrefl. unfold Invariants.selectionIsMember.
  destruct (Data.selectedProgrammer (createDataStoreEntry details)) as [p|] eqn:Hp;
    [|done].
  unfold createDataStoreEntry, findDefaultProgrammer in Hp. simpl in *.
  destruct (argFalsy _); [discriminate|].
  apply List.find_some in Hp as [Hin _].
  apply existsb_exists. exists p. auto.
Qed.

Lemma selectionsAreMembers_insert (st : Store) (key : string) (d : Data.t)
    (m : gmap string Stored) :
  Invariants.selectionIsMember d = true ->
  (forall k v, m !! k = Some v -> Data_is (Some v) = true ->
     Invariants.selectionIsMember (asData (Some v)) = true) ->
  forall k v, <[key := toStored d]> m !! k = Some v -> Data_is (Some v) = true ->
    Invariants.selectionIsMember (asData (Some v)) = true.
Proof.
  intros Hd Hm k v. rewrite lookup_insert. case_decide as Hk.
  - intros [= <-] _. by rewrite BoardsDataStoreProofs.asData_toStored.
  - apply Hm.
Qed.

(** What [getData] returns and leaves, under the invariant. *)
Lemma getData_members (fqbn : option string) (st : Store) :
  (forall p, Programmer_equals p p = true) ->
  Invariants.selectionsAreMembers st ->
  Invariants.selectionIsMember (getData fqbn st).1 = true /\
  Invariants.selectionsAreMembers (getData fqbn st).2.
Proof.
  intros Hrefl Hst. destruct (truthy fqbn) as [f|] eqn:Hf.
  - destruct (Data_is (storage st !! getStorageKey f)) eqn:His.
    + rewrite (BoardsDataStoreProofs.getData_hit _ _ _ Hf His). simpl.
      split; [|done]. destruct (storage st !! getStorageKey f) as [v|] eqn:Hv;
        [|discriminate]. by apply (Hst _ _ Hv).
    + rewrite (BoardsDataStoreProofs.getData_miss _ _ _ Hf His).
      destruct (BoardsDataStoreProofs.loadBoardDetails_frame f st) as (Hs & _ & _).
      destruct (loadBoardDetails f st).1 as [details|]; simpl.
      * split; [by apply createDataStoreEntry_member|].
        unfold Invariants.selectionsAreMembers. simpl. rewrite Hs.
        apply (selectionsAreMembers_insert st);
          [by apply createDataStoreEntry_member|exact Hst].
      * split; [done|]. unfold Invariants.selectionsAreMembers. by rewrite Hs.
  - rewrite BoardsDataStoreProofs.getData_falsy by done. by split.
Qed.

(** X8.  The selected programmer stays one of the board's programmers.
    If [Programmer.equals] is reflexive and, for every value of the
    storage that [Data.is] accepts, the selected programmer (if any) is a
    member of the programmers, then the same holds of the data [getData]
    returns and of the storage after [getData], [selectProgrammer] and
    [selectConfigOption]. *)
Theorem selections_stay_members
    (fqbn : string) (p : Programmer.t) (option' selectedValue : string) (st : Store) :
  (forall q, Programmer_equals q q = true) ->
  Invariants.selectionsAreMembers st ->
  Invariants.selectionIsMember (getData (Some fqbn) st).1 = true /\
  Invariants.selectionsAreMembers (getData (Some fqbn) st).2 /\
  Invariants.selectionsAreMembers (selectProgrammer fqbn p st).2 /\
  Invariants.selectionsAreMembers (selectConfigOption fqbn option' selectedValue st).2.
Proof.
  intros Hrefl Hst.
  destruct (getData_members (Some fqbn) st Hrefl Hst) as [Hd Hst1].
  split; [done|]. split; [done|]. split.
  - rewrite BoardsDataStoreProofs.selectProgrammer_run. cbv zeta.
    destruct (existsb _ _) eqn:Hmem; [|done].
    unfold Invariants.selectionsAreMembers. simpl.
    by apply (selectionsAreMembers_insert st).
  - rewrite BoardsDataStoreProofs.selectConfigOption_run. cbv zeta.
    destruct (findOption _ _ _) as [[i c]|]; [|done].
    destruct (Spec.offers _ _); [|done].
    unfold Invariants.selectionsAreMembers. simpl.
    by apply (selectionsAreMembers_insert st).
Qed.
End WithServices.

(** X9.  The two forms of [findDefaultProgrammer].  Given the id as a
    string or given a data entry that has it as [defaultProgrammerId],
    the result is the same whenever the id is not the empty string; a
    programmer that is found is one of the list and has the id looked
    for; and the selected programmer of a freshly created entry is the
    default programmer of that entry. *)
Theorem findDefaultProgrammer_forms
    (programmers : list Programmer.t) (id : string) (d : Data.t)
    (details : BoardDetails.t) :
  (id <> "" -> Data.defaultProgrammerId d = Some id ->
     findDefaultProgrammer programmers (ArgData d)
       = findDefaultProgrammer programmers (ArgString id)) /\
  (forall p, findDefaultProgrammer programmers (ArgString id) = Some p ->
     p ∈ programmers /\ Programmer.id p = id /\ id <> "") /\
  (forall p, findDefaultProgrammer programmers (ArgData d) = Some p ->
     p ∈ programmers /\ Data.defaultProgrammerId d = Some (Programmer.id p)) /\
  findDefaultProgrammer (Data.programmers (createDataStoreEntry details))
                        (ArgData (createDataStoreEntry details))
    = Data.selectedProgrammer (createDataStoreEntry details).
Proof.
  split; [|split; [|split]].
  - intros Hne Hd. unfold findDefaultProgrammer. simpl.
    rewrite bool_decide_eq_false_2 by done. by rewrite Hd.
  - intros p. unfold findDefaultProgrammer. simpl.
    case_bool_decide as Hid; [discriminate|].
    intros Hfind. apply List.find_some in Hfind as [Hin Hp].
    apply bool_decide_eq_true in Hp. injection Hp as Hp.
    split; [by apply list_elem_of_In|done].
  - intros p. unfold findDefaultProgrammer. simpl.
    intros Hfind. apply List.find_some in Hfind as [Hin Hp].
    apply bool_decide_eq_true in Hp.
    split; [by apply list_elem_of_In|done].
  - unfold createDataStoreEntry, findDefaultProgrammer. simpl.
    destruct (BoardDetails.defaultProgrammerId details) as [i|]; simpl.
    + unfold truthy, falsy. case_bool_decide as Hi; simpl; [|done].
      rewrite <- (find_never (BoardDetails.programmers details)).
      f_equal.
    + rewrite <- (find_never (BoardDetails.programmers details)). f_equal.
Qed.

Section WithListeners.
Context {Err : Type} `{!BoardsService Err} `{!StoredJunk}.

(** What [setData] writes is an object. *)
Lemma storedTruthy_toStored (key : string) (d : Data.t) :
  storedTruthy key (Some (toStored d)) = true.
Proof. reflexivity. Qed.

(** One round of the loop of the listener. *)
Lemma refreshInstalled_cons (f : string) (rest : list string)
    (changes : list BoardsDataStoreChange) (st : Store) :
  refreshInstalled (f :: rest) changes st =
    if storedTruthy (getStorageKey f) (storage st !! getStorageKey f) then
      match getBoardDetails f with
      | Returns (Some details) =>
          let data := createDataStoreEntry details in
          refreshInstalled rest (changes ++ [{| fqbn := f; data := data |}])
            {| storage := <[getStorageKey f := toStored data]> (storage st);
               fired := fired st;
               requested := requested st ++ [f];
               logged := logged (loadBoardDetails f st).2 |}
      | _ => refreshInstalled rest changes (loadBoardDetails f st).2
      end
    else refreshInstalled rest changes st.
Proof.
  simpl. unfold bind at 1. unfold storageService_getData at 1.
  destruct (storedTruthy _ _); simpl; [|done].
  unfold bind at 1.
  pose proof (BoardsDataStoreProofs.loadBoardDetails_value f st) as Hv.
  destruct (BoardsDataStoreProofs.loadBoardDetails_frame f st) as (Hs & Hfi & Hr).
  destruct (loadBoardDetails f st) as [details st1]. simpl in *. subst details.
  destruct (getBoardDetails f) as [[details|]|e|e]; try done.
  unfold bind, storageService_setData. simpl. by rewrite Hs, Hfi, Hr.
Qed.

(** The storage after the loop, board by board. *)
Lemma refreshInstalled_lookup (bs : list string)
    (changes : list BoardsDataStoreChange) (st : Store) (f : string) :
  storage (refreshInstalled bs changes st).2 !! getStorageKey f =
    if bool_decide (f ∈ bs) &&
       storedTruthy (getStorageKey f) (storage st !! getStorageKey f)
    then match getBoardDetails f with
         | Returns (Some details) => Some (toStored (createDataStoreEntry details))
         | _ => storage st !! getStorageKey f
         end
    else storage st !! getStorageKey f.
Proof.
  revert changes st. induction bs as [|h bs IH]; intros changes st; [done|].
  rewrite refreshInstalled_cons.
  destruct (BoardsDataStoreProofs.loadBoardDetails_frame h st) as (Hs & _ & _).
  destruct (decide (f = h)) as [->|Hfh].
  - rewrite (bool_decide_eq_true_2 (h ∈ h :: bs)) by apply list_elem_of_here.
    simpl.
    destruct (storedTruthy _ (storage st !! _)) eqn:Htruthy.
    + destruct (getBoardDetails h) as [[details|]|e|e] eqn:Hg; cbv zeta;
        rewrite IH; simpl; rewrite ?Hs, ?Hg, ?Htruthy, ?lookup_insert_eq;
        rewrite ?storedTruthy_toStored; by destruct (bool_decide _).
    + rewrite IH, Htruthy. by rewrite andb_false_r.
  - assert (Hmem : bool_decide (f ∈ h :: bs) = bool_decide (f ∈ bs)).
    { apply bool_decide_ext. rewrite elem_of_cons.
      split; [intros [Heq|Hin]; [contradiction|done]|by right]. }
    assert (Hkey : getStorageKey h <> getStorageKey f)
      by (intros Hk; apply getStorageKey_inj in Hk; congruence).
    rewrite Hmem.
    destruct (storedTruthy _ (storage st !! getStorageKey h)).
    + destruct (getBoardDetails h) as [[details|]|e|e]; cbv zeta;
        rewrite IH; simpl; rewrite ?Hs, ?lookup_insert_ne by done; done.
    + by rewrite IH.
Qed.

(** Keys that belong to none of the boards are not written. *)
Lemma refreshInstalled_other_keys (bs : list string)
    (changes : list BoardsDataStoreChange) (st : Store) (k : string) :
  (forall f, f ∈ bs -> k <> getStorageKey f) ->
  storage (refreshInstalled bs changes st).2 !! k = storage st !! k.
Proof.
  revert changes st. induction bs as [|h bs IH]; intros changes st Hk; [done|].
  rewrite refreshInstalled_cons.
  destruct (BoardsDataStoreProofs.loadBoardDetails_frame h st) as (Hs & _ & _).
  assert (Hh : k <> getStorageKey h) by (apply Hk, list_elem_of_here).
  assert (Hbs : forall f, f ∈ bs -> k <> getStorageKey f)
    by (intros f Hf; apply Hk; by apply list_elem_of_further).
  destruct (storedTruthy _ _); [|by apply IH].
  destruct (getBoardDetails h) as [[details|]|e|e]; cbv zeta;
    rewrite IH by done; simpl; rewrite ?Hs, ?lookup_insert_ne by done; done.
Qed.

(** The loop fires nothing; the changes it collects are fresh entries
    of boards of the list, and each is what the storage holds in the
    end. *)
Lemma refreshInstalled_changes (bs : list string)
    (changes : list BoardsDataStoreChange) (st : Store) :
  fired (refreshInstalled bs changes st).2 = fired st /\
  exists more,
    (refreshInstalled bs changes st).1 = changes ++ more /\
    forall c, c ∈ more ->
      fqbn c ∈ bs /\
      (exists details, getBoardDetails (fqbn c) = Returns (Some details) /\
         data c = createDataStoreEntry details) /\
      storage (refreshInstalled bs changes st).2 !! getStorageKey (fqbn c)
        = Some (toStored (data c)).
Proof.
  revert changes st. induction bs as [|h bs IH]; intros changes st.
  - split; [done|]. exists []. split; [by rewrite app_nil_r|].
    intros c Hc. by apply elem_of_nil in Hc.
  - rewrite refreshInstalled_cons.
    destruct (BoardsDataStoreProofs.loadBoardDetails_frame h st) as (Hs & Hfi & _).
    assert (Hweaken : forall cs s,
      (exists more, (refreshInstalled bs cs s).1 = cs ++ more /\
         forall c, c ∈ more ->
           fqbn c ∈ bs /\
           (exists details, getBoardDetails (fqbn c) = Returns (Some details) /\
              data c = createDataStoreEntry details) /\
           storage (refreshInstalled bs cs s).2 !! getStorageKey (fqbn c)
             = Some (toStored (data c))) ->
      exists more, (refreshInstalled bs cs s).1 = cs ++ more /\
         forall c, c ∈ more ->
           fqbn c ∈ h :: bs /\
           (exists details, getBoardDetails (fqbn c) = Returns (Some details) /\
              data c = createDataStoreEntry details) /\
           storage (refreshInstalled bs cs s).2 !! getStorageKey (fqbn c)
             = Some (toStored (data c))).
    { intros cs s (more & Hmore & Hall). exists more. split; [done|].
      intros c Hc. destruct (Hall c Hc) as (Hin & Hd & Hst).
      split; [by apply list_elem_of_further|done]. }
    destruct (storedTruthy _ _) eqn:Htruthy.
    + destruct (getBoardDetails h) as [[details|]|e|e] eqn:Hg; cbv zeta.
      * destruct (IH (changes ++ [{| fqbn := h; data := createDataStoreEntry details |}])
                    {| storage := <[getStorageKey h :=
                                      toStored (createDataStoreEntry details)]> (storage st);
                       fired := fired st;
                       requested := requested st ++ [h];
                       logged := logged (loadBoardDetails h st).2 |})
          as (Hfired & more & Hmore & Hall).
        split; [exact Hfired|].
        exists ({| fqbn := h; data := createDataStoreEntry details |} :: more).
        split; [by rewrite Hmore, <- app_assoc|].
        intros c Hc. apply elem_of_cons in Hc as [->|Hc].
        -- simpl. split; [apply list_elem_of_here|]. split; [by eauto|].
           rewrite refreshInstalled_lookup. simpl.
           rewrite lookup_insert_eq, storedTruthy_toStored, Hg.
           by destruct (bool_decide _).
        -- destruct (Hall c Hc) as (Hin & Hd & Hst).
           split; [by apply list_elem_of_further|done].
      * destruct (IH changes (loadBoardDetails h st).2) as (Hfired & Hex).
        split; [by rewrite Hfired|]. by apply Hweaken.
      * destruct (IH changes (loadBoardDetails h st).2) as (Hfired & Hex).
        split; [by rewrite Hfired|]. by apply Hweaken.
      * destruct (IH changes (loadBoardDetails h st).2) as (Hfired & Hex).
        split; [by rewrite Hfired|]. by apply Hweaken.
    + destruct (IH changes st) as (Hfired & Hex).
      split; [done|]. by apply Hweaken.
Qed.

(** Without a truthy stored value for any board, the loop does nothing. *)
Lemma refreshInstalled_untouched (bs : list string)
    (changes : list BoardsDataStoreChange) (st : Store) :
  (forall f, f ∈ bs ->
     storedTruthy (getStorageKey f) (storage st !! getStorageKey f) = false) ->
  refreshInstalled bs changes st = (changes, st).
Proof.
  revert changes. induction bs as [|h bs IH]; intros changes Hall; [done|].
  rewrite refreshInstalled_cons, (Hall h) by apply list_elem_of_here.
  apply IH. intros f Hf. apply Hall. by apply list_elem_of_further.
Qed.

(** X10.  After a platform is installed, the cached entry of each of its
    boards is replaced by a fresh one: for a board of the list with a
    (truthy) stored value whose details can be loaded, the storage holds
    the entry created from the details, whatever was selected before.
    Boards of the list without a stored value stay without one, keys of
    other boards are not written, and when no board of the list has a
    stored value nothing happens at all: no request, no write, no
    event. *)
Theorem onPlatformDidInstall_refreshes (boardsWithFqbn : list string) (st : Store) :
  let st' := (onPlatformDidInstall boardsWithFqbn st).2 in
  (forall f details,
     f ∈ boardsWithFqbn ->
     storedTruthy (getStorageKey f) (storage st !! getStorageKey f) = true ->
     getBoardDetails f = Returns (Some details) ->
     storage st' !! getStorageKey f = Some (toStored (createDataStoreEntry details))) /\
  (forall f, storage st !! getStorageKey f = None ->
     storage st' !! getStorageKey f = None) /\
  (forall k, (forall f, f ∈ boardsWithFqbn -> k <> getStorageKey f) ->
     storage st' !! k = storage st !! k) /\
  ((forall f, f ∈ boardsWithFqbn -> storage st !! getStorageKey f = None) ->
     st' = st).
Proof.
  cbv zeta.
  assert (Hst : storage (onPlatformDidInstall boardsWithFqbn st).2
                = storage (refreshInstalled boardsWithFqbn [] st).2).
  { unfold onPlatformDidInstall, bind.
    destruct (refreshInstalled boardsWithFqbn [] st) as [[|c cs] st1]; done. }
  rewrite Hst. split; [|split; [|split]].
  - intros f details Hin Htruthy Hg.
    rewrite refreshInstalled_lookup, Htruthy, Hg.
    by rewrite bool_decide_eq_true_2.
  - intros f Hnone. rewrite refreshInstalled_lookup, Hnone. simpl.
    by rewrite andb_false_r.
  - intros k Hk. by apply refreshInstalled_other_keys.
  - intros Hnone. unfold onPlatformDidInstall, bind.
    rewrite refreshInstalled_untouched; [done|].
    intros f Hf. by rewrite (Hnone f Hf).
Qed.

(** X11.  The listener fires at most one event, and never an empty one;
    every change of the event is the fresh entry of a board of the list
    whose details were loaded, and is what the storage holds for that
    board afterwards. *)
Theorem onPlatformDidInstall_event (boardsWithFqbn : list string) (st : Store) :
  let st' := (onPlatformDidInstall boardsWithFqbn st).2 in
  fired st' = fired st \/
  exists c cs,
    fired st' = fired st ++ [{| changes := c :: cs |}] /\
    forall c', c' ∈ c :: cs ->
      fqbn c' ∈ boardsWithFqbn /\
      (exists details, getBoardDetails (fqbn c') = Returns (Some details) /\
         data c' = createDataStoreEntry details) /\
      storage st' !! getStorageKey (fqbn c') = Some (toStored (data c')).
Proof.
  cbv zeta. unfold onPlatformDidInstall, bind.
  destruct (refreshInstalled_changes boardsWithFqbn [] st) as (Hfired & more & Hmore & Hall).
  destruct (refreshInstalled boardsWithFqbn [] st) as [changes st1]. simpl in *.
  subst changes. destruct more as [|c cs]; [by left|].
  right. exists c, cs. simpl. split; [by rewrite Hfired|]. exact Hall.
Qed.

(** [getDataRef] is [getData], with the mark of the constant. *)
Lemma getDataRef_getData (fqbn : option string) (st : Store) :
  (getDataRef fqbn st).1.1 = (getData fqbn st).1 /\
  (getDataRef fqbn st).2 = (getData fqbn st).2 /\
  ((getDataRef fqbn st).1.2 = true <->
     truthy fqbn = None \/
     exists f, truthy fqbn = Some f /\
       Data_is (storage st !! getStorageKey f) = false /\
       forall details, getBoardDetails f <> Returns (Some details)).
Proof.
  destruct (truthy fqbn) as [f|] eqn:Hf.
  2: { unfold getDataRef. rewrite Hf.
       rewrite BoardsDataStoreProofs.getData_falsy by done.
       simpl. repeat split; auto. }
  unfold getDataRef. rewrite Hf. unfold bind, storageService_getData.
  destruct (Data_is (storage st !! getStorageKey f)) eqn:His.
  { rewrite (BoardsDataStoreProofs.getData_hit _ _ _ Hf His). simpl.
    repeat split; try discriminate.
    intros [Hn|(f' & [= <-] & Hmiss & _)]; congruence. }
  rewrite (BoardsDataStoreProofs.getData_miss _ _ _ Hf His).
  pose proof (BoardsDataStoreProofs.loadBoardDetails_value f st) as Hv.
  destruct (loadBoardDetails f st) as [[details|] st1]; simpl in *.
  - repeat split; try discriminate.
    intros [Hn|(f' & [= <-] & _ & Hno)]; [discriminate|].
    destruct (getBoardDetails f) as [[details'|]|e|e]; try discriminate.
    by destruct (Hno details').
  - repeat split; auto. intros _. right. exists f. repeat split; auto.
    intros details Hg. rewrite Hg in Hv. discriminate.
Qed.

Lemma getSelectedBoardData_run (fqbn : option string) (st : Store) :
  getSelectedBoardData fqbn st =
    (match truthy fqbn with
     | Some f =>
         if (getDataRef (Some f) st).1.2 then None
         else Some {| fqbn := f; data := (getData (Some f) st).1 |}
     | None => None
     end,
     (getData fqbn st).2).
Proof.
  unfold getSelectedBoardData. destruct (truthy fqbn) as [f|] eqn:Hf.
  - pose proof Hf as Hf'.
    apply BoardsDataStoreProofs.truthy_Some in Hf' as [-> _].
    unfold bind. destruct (getDataRef_getData (Some f) st) as (Hd & Hs & _).
    destruct (getDataRef (Some f) st) as [[d flag] st1]. simpl in *.
    subst. by destruct flag.
  - by rewrite BoardsDataStoreProofs.getData_falsy.
Qed.

(** X12.  The data of the selected board.  [getSelectedBoardData] does
    to the state what [getData] does.  It yields undefined exactly when
    the FQBN is undefined or empty, or nothing acceptable is stored and
    the board details cannot be loaded; otherwise it yields the FQBN with
    the data of [getData], which the storage then holds.  The test for
    emptiness is on the constant [Data.EMPTY] itself: a stored entry that
    merely looks empty is yielded. *)
Theorem getSelectedBoardData_selected (fqbn : option string) (st : Store) :
  (getSelectedBoardData fqbn st).2 = (getData fqbn st).2 /\
  ((getSelectedBoardData fqbn st).1 = None <->
     fqbn = None \/ fqbn = Some "" \/
     exists f, fqbn = Some f /\
       Data_is (storage st !! getStorageKey f) = false /\
       forall details, getBoardDetails f <> Returns (Some details)) /\
  (forall c, (getSelectedBoardData fqbn st).1 = Some c ->
     fqbn = Some (BoardsDataStore.fqbn c) /\ BoardsDataStore.fqbn c <> "" /\
     data c = (getData fqbn st).1 /\
     storage (getData fqbn st).2 !! getStorageKey (BoardsDataStore.fqbn c)
       = Some (toStored (data c))) /\
  (forall f, f <> "" ->
     storage st !! getStorageKey f = Some (toStored Data.EMPTY) ->
     (getSelectedBoardData (Some f) st).1 = Some {| fqbn := f; data := Data.EMPTY |}).
Proof.
  rewrite getSelectedBoardData_run. simpl. split; [done|]. split; [|split].
  - destruct (truthy fqbn) as [f|] eqn:Hf.
    + pose proof Hf as Hf'.
      apply BoardsDataStoreProofs.truthy_Some in Hf' as [-> Hne].
      destruct (getDataRef_getData (Some f) st) as (_ & _ & Hflag).
      destruct (getDataRef (Some f) st).1.2; split; try discriminate.
      * intros _. destruct Hflag as [Hflag _].
        destruct (Hflag eq_refl) as [Hn|(f' & Hf' & Hmiss & Hno)]; [congruence|].
        rewrite Hf in Hf'. injection Hf' as <-. right. right. eauto.
      * done.
      * intros [?|[[= ->]|(f' & [= <-] & Hmiss & Hno)]]; [done|done|].
        destruct Hflag as [_ Hflag]. discriminate Hflag. right. eauto.
    + apply BoardsDataStoreProofs.truthy_None in Hf. split; [|done].
      intros _. destruct Hf; auto.
  - intros c. destruct (truthy fqbn) as [f|] eqn:Hf; [|discriminate].
    pose proof Hf as Hf'.
    apply BoardsDataStoreProofs.truthy_Some in Hf' as [-> Hne].
    destruct (getDataRef_getData (Some f) st) as (_ & _ & Hflag).
    destruct (getDataRef (Some f) st).1.2 eqn:Hfl; [discriminate|].
    intros [= <-]. simpl. repeat split; auto.
    assert (Ht : truthy (Some f) = Some f) by done.
    destruct (Data_is (storage st !! getStorageKey f)) eqn:His.
    + rewrite (BoardsDataStoreProofs.getData_hit _ _ _ Ht His). simpl.
      by apply BoardsDataStoreProofs.toStored_asData.
    + rewrite (BoardsDataStoreProofs.getData_miss _ _ _ Ht His).
      rewrite BoardsDataStoreProofs.loadBoardDetails_value.
      destruct (getBoardDetails f) as [[details|]|e|e] eqn:Hg; simpl;
        try apply lookup_insert_eq.
      all: destruct Hflag as [_ Hflag]; discriminate Hflag; right;
        exists f; repeat split; auto; intros details; by rewrite Hg.
  - intros f Hne Hst.
    assert (Ht : truthy (Some f) = Some f)
      by (apply BoardsDataStoreProofs.truthy_Some; auto).
    rewrite getSelectedBoardData_run, Ht. simpl.
    destruct (getDataRef_getData (Some f) st) as (_ & _ & Hflag).
    rewrite (getData_stored_hit (BoardsService0 := BoardsService0) f Data.EMPTY st Hne Hst).
    destruct (getDataRef (Some f) st).1.2; [|done].
    destruct Hflag as [Hflag _].
    destruct (Hflag eq_refl) as [Hn|(f' & Hf' & Hmiss & _)]; [congruence|].
    rewrite Ht in Hf'. injection Hf' as <-. rewrite Hst in Hmiss. discriminate.
Qed.

(** The command accepts a change that comes from [tasks], and persists
    it. *)
Lemma useInheritedData_toArg (c : BoardsDataStoreChange) (st : Store) :
  useInheritedData (toArg c) st
    = (tt, Spec.persisted (BoardsDataStore.fqbn c) (data c) st).
Proof. destruct c as [f [co pr [sp|] [dp|]]]; reflexivity. Qed.

(** X13.  The startup task hands the selected board's data to the next
    window.  After [updateSelectedBoardData], [tasks] is empty when there
    is no data for the board, and otherwise holds the one task of the
    command [USE_INHERITED_DATA] with the selected data as its argument;
    executing the command with that argument on any store makes
    [getData] return that data for the board, without a request for
    board details, and fires one change event for it. *)
Theorem startup_task_inherits (fqbn : option string) (this : Instance) (st2 : Store) :
  let this' := updateSelectedBoardData fqbn this in
  match tasks this' with
  | [] => (getSelectedBoardData fqbn (store this)).1 = None
  | task :: others =>
      others = [] /\ command task = "arduino-use-inherited-boards-data" /\
      exists c,
        (getSelectedBoardData fqbn (store this)).1 = Some c /\
        args task = [toArg c] /\
        let st2' := (useInheritedData (toArg c) st2).2 in
        getData (Some (BoardsDataStore.fqbn c)) st2' = (data c, st2') /\
        fired st2' = fired st2 ++ [{| changes := [c] |}] /\
        requested st2' = requested st2
  end.
Proof.
  cbv zeta. unfold updateSelectedBoardData, tasks.
  pose proof (getSelectedBoardData_run fqbn (store this)) as Hrun.
  destruct (getSelectedBoardData fqbn (store this)) as [[c|] st1]; simpl; [|done].
  split; [done|]. split; [done|]. exists c. split; [done|]. split; [done|].
  assert (Hne : BoardsDataStore.fqbn c <> "").
  { injection Hrun as Hc _. destruct (truthy fqbn) as [f|] eqn:Hf; [|discriminate].
    apply BoardsDataStoreProofs.truthy_Some in Hf as [_ Hne].
    destruct (getDataRef _ _).1.2; [discriminate|]. by injection Hc as ->. }
  rewrite useInheritedData_toArg. simpl.
  split; [|by destruct c].
  apply (getData_stored_hit (BoardsService0 := BoardsService0)); [done|].
  apply lookup_insert_eq.
Qed.
End WithListeners.
End BoardsDataStoreLaws.

(** ** Further properties of the debug contribution *)

Module DebugLaws.
Import Debug DebugState.

(** [includes] is the substring test. *)
Lemma prefix_split (needle haystack : string) :
  String.prefix needle haystack = true <->
  exists post, haystack = needle +:+ post.
Proof.
  revert haystack. induction needle as [|a needle IH]; intros haystack.
  - split; [intros _; by exists haystack|]. intros _. by destruct haystack.
  - destruct haystack as [|b haystack]; simpl.
    { split; [done|]. by intros [post ?]. }
    destruct (Ascii.ascii_dec a b) as [<-|Hab].
    + rewrite IH. split; intros [post Hp]; exists post; [by rewrite Hp|].
      by injection Hp.
    + split; [done|]. intros [post Hp]. by injection Hp.
Qed.

Lemma includes_substring (needle haystack : string) :
  includes needle haystack = true <->
  exists pre post, haystack = pre +:+ needle +:+ post.
Proof.
  induction haystack as [|b haystack IH].
  - change (includes needle "") with (String.prefix needle "" || false).
    rewrite orb_false_r, prefix_split. split.
    + intros [post Hp]. by exists "", post.
    + intros ([|c pre] & post & Hp); [by exists post|discriminate].
  - change (includes needle (String b haystack))
      with (String.prefix needle (String b haystack) || includes needle haystack).
    rewrite orb_true_iff, prefix_split, IH. split.
    + intros [[post Hp]|(pre & post & Hp)].
      * by exists "", post.
      * exists (String b pre), post. simpl. by rewrite Hp.
    + intros ([|c pre] & post & Hp).
      * left. by exists post.
      * right. injection Hp as _ Hp. by exists pre, post.
Qed.

Section WithInspect.
Context {Err : Type} `{!Inspect Err} `{!Nls} `{!SketchesService Err}.
Implicit Types (sketch : option CurrentSketch) (board : option BoardIdentifier.t)
               (cb : Callbacks Err) (this : State).

(** X14.  What [refreshState] leaves.  When [isDebugEnabled] resolves,
    the disabled message is undefined, the start command is enabled and
    the emitter has fired once.  When it rejects with an [Error] of its
    own, the message of the error is the disabled message and the emitter
    has fired twice, first with the error's string form.  In the end the
    start command is enabled exactly when [isDebugEnabled] resolved or
    the message it failed with is the empty string.  Without a valid
    sketch the message is [noSketchOpened], and with a valid sketch but
    no board it is [noBoardSelected]. *)
Theorem refreshState_decides sketch board cb this :
  let this' := refreshState sketch board cb this in
  ((run sketch board cb).1 = Normal tt ->
     disabledMessage this' = None /\ isEnabled this' = true /\
     emitted this' = emitted this ++ [None]) /\
  (forall m, (run sketch board cb).1 = Abrupt (NewError m) ->
     disabledMessage this' = Some m /\
     emitted this' =
       emitted this ++ [Some (if bool_decide (m = "") then "Error" else "Error: " +:+ m);
                        Some m]) /\
  (isEnabled this' = true <->
     (run sketch board cb).1 = Normal tt \/ disabledMessage this' = Some "") /\
  (CurrentSketch_isValid sketch = None ->
     disabledMessage this' = Some noSketchOpened) /\
  (forall s, CurrentSketch_isValid sketch = Some s -> board = None ->
     disabledMessage this' = Some noBoardSelected).
Proof.
  cbv zeta. unfold refreshState.
  split; [|split; [|split; [|split]]].
  - intros ->. simpl. by rewrite <- ?app_assoc.
  - intros m ->. simpl. by rewrite <- ?app_assoc.
  - destruct (run sketch board cb).1 as [[]|t]; simpl.
    + split; auto.
    + match goal with |- isEnabled ?y = true <-> _ => set (x := y) end.
      assert (Hsome : is_Some (disabledMessage x))
        by (unfold x; destruct (message_of_thrown t); simpl; eauto).
      unfold isEnabled. destruct (disabledMessage x) as [m|]; [|by destruct Hsome].
      simpl. case_bool_decide as Hm; split.
      * intros _. right. by rewrite Hm.
      * done.
      * discriminate.
      * intros [Hc|[= Hc]]; [discriminate|contradiction].
  - intros Hs. by rewrite DebugProofs.run_invalid.
  - intros s Hs ->. by erewrite DebugProofs.run_no_board.
Qed.

(** X15.  A failing request for board details shows through.  With a
    valid sketch and a board with an FQBN, when [getDetails] throws, or
    rejects while the two other fetches return, [refreshState] sets the
    disabled message to the message of the value that came out of
    [getDetails] if it is an [Error], and to its string form if not. *)
Theorem refreshState_details_failure sketch cb this s b f e :
  CurrentSketch_isValid sketch = Some s ->
  truthy (BoardIdentifier.fqbn b) = Some f ->
  getDetails cb f = Throws e \/
  (getDetails cb f = Rejects e /\
   (exists d, getData cb f = Returns d) /\
   (exists fq, appendConfigToFqbn cb f = Returns fq)) ->
  disabledMessage (refreshState sketch (Some b) cb this)
    = Some (default (toString e) (asError e)).
Proof.
  intros Hs Hf Hfail. unfold refreshState, run, isDebugEnabled.
  rewrite Hs, Hf. unfold bind, invoke.
  destruct Hfail as [-> | (-> & [d ->] & [fq ->])]; simpl;
    unfold disabledMessage, message_of_thrown; simpl;
    by destruct (asError e).
Qed.

(** X16.  A synchronous throw and a rejection differ in what is started.
    With a valid sketch and a board with an FQBN: when [getDetails]
    throws, neither [getData] nor [appendConfigToFqbn] is invoked, and
    the call is rejected with the value thrown; when [getDetails]
    returns a promise that rejects, the two other fetches are still
    invoked (unless one of them throws), the call is rejected, and
    [checkDebugEnabled] is never invoked. *)
Theorem isDebugEnabled_throw_or_reject sketch cb s b f e :
  CurrentSketch_isValid sketch = Some s ->
  truthy (BoardIdentifier.fqbn b) = Some f ->
  (getDetails cb f = Throws e ->
     run sketch (Some b) cb = (Abrupt (Raised e), [CallGetDetails f])) /\
  (getDetails cb f = Rejects e ->
     (exists t, (run sketch (Some b) cb).1 = Abrupt t) /\
     [CallGetDetails f; CallGetData f] `prefix_of` (run sketch (Some b) cb).2 /\
     (run sketch (Some b) cb).2 `prefix_of` Spec.fetches f /\
     ((forall e', getData cb f <> Throws e') ->
        (run sketch (Some b) cb).2 = Spec.fetches f)).
Proof.
  intros Hs Hf. unfold run, isDebugEnabled. rewrite Hs, Hf. unfold bind, invoke.
  split; intros ->; simpl; [done|].
  destruct (getData cb f) as [d|e2|e2]; simpl;
    destruct (appendConfigToFqbn cb f) as [fq|e3|e3]; simpl.
  all: split; [by eexists|].
  all: split; [by eexists|].
  all: split; [unfold Spec.fetches; by eexists|].
  all: try (intros _; reflexivity).
  all: intros Hno; by destruct (Hno e2).
Qed.

(** X17.  The class's own classification.  [isSketchNotVerifiedError]
    answers true exactly when the value is an [Error], the temporary
    build paths of the sketch can be obtained, and one of them occurs in
    the error's message as a substring.  With this classification passed
    as the callback, a failing CLI check never lets a value of a
    callback through: the call is rejected with [sketchIsNotCompiled] if
    the answer is true and with [debuggingNotSupported] if not. *)
Theorem isSketchNotVerifiedError_classifies sketch board cb :
  (forall err s',
     isSketchNotVerifiedError err s' = true <->
     exists message paths path pre post,
       message_of_thrown err = Some message /\
       tempBuildPath s' = Returns paths /\ path ∈ paths /\
       message = pre +:+ path +:+ post) /\
  (forall s b params e,
     CurrentSketch_isValid sketch = Some s -> board = Some b ->
     Spec.holds sketch board cb Spec.DetailsArePresent = true ->
     Spec.cliParams sketch board cb = Some params ->
     checkDebugEnabled cb params = Throws e \/
     checkDebugEnabled cb params = Rejects e ->
     (run sketch board (withOwnClassifier cb)).1 =
       Abrupt (NewError
                 (if isSketchNotVerifiedError (Raised e) s
                  then sketchIsNotCompiled (Sketch.name s)
                  else debuggingNotSupported (BoardIdentifier.name b)))).
Proof.
  split.
  - intros err s'. unfold isSketchNotVerifiedError.
    destruct (message_of_thrown err) as [message|].
    + destruct (tempBuildPath s') as [paths|e'|e'].
      * rewrite existsb_exists. split.
        -- intros (path & Hin & Hinc). apply includes_substring in Hinc as (pre & post & ->).
           exists (pre +:+ path +:+ post), paths, path, pre, post.
           repeat split; auto. by apply list_elem_of_In.
        -- intros (m & ps & path & pre & post & [= <-] & [= <-] & Hin & ->).
           exists path. split; [by apply list_elem_of_In|].
           apply includes_substring. eauto.
      * split; [done|]. by intros (m & ps & path & pre & post & _ & [=] & _).
      * split; [done|]. by intros (m & ps & path & pre & post & _ & [=] & _).
    + split; [done|]. by intros (m & ps & path & pre & post & [=] & _).
  - intros s b params e Hs -> Hdetails Hparams Hfail.
    unfold Spec.holds, Spec.cliParams, Spec.presentFqbn in *. rewrite Hs in *.
    destruct (truthy (BoardIdentifier.fqbn b)) as [f|] eqn:Hf; [|discriminate].
    destruct (getDetails cb f) as [[details|]|e1|e1] eqn:H1; try discriminate.
    destruct (appendConfigToFqbn cb f) as [fq|e3|e3] eqn:H3; try discriminate.
    destruct (getData cb f) as [d|e2|e2] eqn:H2; try discriminate.
    destruct (truthy fq) as [fq'|] eqn:Hfq; [|discriminate].
    destruct (BoardsDataStore.Data.selectedProgrammer d) as [p|] eqn:Hp; [|discriminate].
    injection Hparams as <-.
    rewrite (DebugProofs.run_fetched sketch (withOwnClassifier cb) s b f
               (Some details) d fq Hs Hf H1 H2 H3).
    rewrite Hfq, Hp. unfold Spec.cliStage. simpl.
    destruct Hfail as [-> | ->]; simpl;
      by destruct (isSketchNotVerifiedError (Raised e) s).
Qed.
End WithInspect.

(** X18.  Toggling [n] times.  After [n] calls of
    [toggleCompileForDebug], [compileForDebug] has its first value if [n]
    is even and the opposite if [n] is odd, the menu has been updated [n]
    times, every other key of the local storage is as it was, and once
    toggled the stored value is "true" or "false". *)
Theorem toggleCompileForDebug_times (n : nat) (w : Window) :
  compileForDebug (toggleTimes n w) = xorb (Nat.odd n) (compileForDebug w) /\
  menuUpdates (toggleTimes n w) = menuUpdates w + n /\
  (forall key, key <> "arduino-compile-for-debug" ->
     localStorage (toggleTimes n w) !! key = localStorage w !! key) /\
  (0 < n ->
     localStorage (toggleTimes n w) !! "arduino-compile-for-debug"
       = Some (if compileForDebug (toggleTimes n w) then "true" else "false")).
Proof.
  assert (Hneg : forall w', compileForDebug (toggleCompileForDebug w')
                            = negb (compileForDebug w')).
  { intros w'. unfold toggleCompileForDebug.
    unfold compileForDebug at 1. simpl. rewrite lookup_insert_eq.
    destruct (compileForDebug w'); reflexivity. }
  induction n as [|n (IHc & IHm & IHk & IHv)].
  - simpl. repeat split; auto. lia.
  - change (toggleTimes (S n) w) with (toggleCompileForDebug (toggleTimes n w)).
    split; [|split; [|split]].
    + rewrite Hneg, IHc, Nat.odd_succ, <- Nat.negb_odd.
      by destruct (Nat.odd n), (compileForDebug w).
    + simpl. lia.
    + intros key Hkey. simpl. rewrite lookup_insert_ne by done. by apply IHk.
    + intros _. rewrite Hneg. unfold toggleCompileForDebug. simpl.
      rewrite lookup_insert_eq. by destruct (compileForDebug (toggleTimes n w)).
Qed.

Section WithStore.
Context {Err : Type} `{!BoardsService Err} `{!ProtocolHelpers}.

(** X19.  Which selections refresh the debug state.  The listener of
    [boardsDataStore.onDidChange] refreshes on the event of a successful
    [selectProgrammer] or [selectConfigOption] exactly when the call was
    for the FQBN of the selected board; a call that returns false fires
    no event at all. *)
Theorem selection_refreshes_debug
    (f : string) (p : Programmer.t) (option' selectedValue : string)
    (selectedFqbn : option string) (st : BoardsDataStore.Store) :
  let a := BoardsDataStore.selectProgrammer f p st in
  let b := BoardsDataStore.selectConfigOption f option' selectedValue st in
  (if a.1
   then exists event, BoardsDataStore.fired a.2 = BoardsDataStore.fired st ++ [event] /\
          (refreshesOn selectedFqbn event = true <-> selectedFqbn = Some f)
   else BoardsDataStore.fired a.2 = BoardsDataStore.fired st) /\
  (if b.1
   then exists event, BoardsDataStore.fired b.2 = BoardsDataStore.fired st ++ [event] /\
          (refreshesOn selectedFqbn event = true <-> selectedFqbn = Some f)
   else BoardsDataStore.fired b.2 = BoardsDataStore.fired st).
Proof.
  cbv zeta.
  rewrite BoardsDataStoreProofs.selectProgrammer_run,
    BoardsDataStoreProofs.selectConfigOption_run. cbv zeta.
  pose proof (BoardsDataStoreProofs.getData_frame_fired (Some f) st) as Hfired.
  assert (Hone : forall d,
            refreshesOn selectedFqbn
              {| BoardsDataStore.changes :=
                   [{| BoardsDataStore.fqbn := f; BoardsDataStore.data := d |}] |} = true
            <-> selectedFqbn = Some f).
  { intros d. unfold refreshesOn. simpl. case_bool_decide; split; done. }
  split.
  - destruct (existsb _ _); simpl; [|done].
    eexists. split; [by rewrite Hfired|apply Hone].
  - destruct (BoardsDataStore.findOption _ _ _) as [[i c]|]; [|done].
    destruct (Spec.offers _ _); simpl; [|done].
    eexists. split; [by rewrite Hfired|apply Hone].
Qed.
End WithStore.
End DebugLaws.

(** ** The further properties at concrete inputs *)

Module LawsAtInputs.
Import BoardsDataStore BoardsDataStoreLifecycle Fixtures Scenario.

(** X1 on first load of the board [a:b:c]. *)
Lemma getData_second_call_hits_witness :
  getData (Some Fixtures.fqbn) (getData (Some Fixtures.fqbn) fresh).2
    = getData (Some Fixtures.fqbn) fresh.
Proof.
  apply (BoardsDataStoreLaws.getData_second_call_hits (Some Fixtures.fqbn) fresh).
  vm_compute. discriminate.
Defined.

(** X2 for the board [x:y:z], which the boards service does not know:
    two calls, two requests. *)
Lemma getData_failure_not_cached_witness :
  (getData (Some other) fresh).1 = Data.EMPTY /\
  requested (getData (Some other) (getData (Some other) fresh).2).2 = [other; other].
Proof.
  destruct (BoardsDataStoreLaws.getData_failure_not_cached other fresh)
    as (Hempty & _ & _ & _ & _ & _ & Htwice).
  - discriminate.
  - reflexivity.
  - intros details. vm_compute. discriminate.
  - split; [exact Hempty|exact Htwice].
Defined.

(** X3: [p2] selected for the stored entry is read back. *)
Lemma selectProgrammer_read_back_witness :
  getData (Some Fixtures.fqbn) (selectProgrammer Fixtures.fqbn p2 (warm data)).2
    = (chosen, (selectProgrammer Fixtures.fqbn p2 (warm data)).2).
Proof.
  destruct (BoardsDataStoreLaws.selectProgrammer_read_back
              Fixtures.fqbn p2 (warm data)) as [Hback _].
  - vm_compute. reflexivity.
  - exact Hback.
Defined.

(** X4: selecting for [a:b:c] leaves [x:y:z] alone. *)
Lemma boards_are_isolated_witness :
  (getData (Some other) (selectProgrammer Fixtures.fqbn p2 (warm data)).2).1
    = (getData (Some other) (warm data)).1.
Proof.
  destruct (BoardsDataStoreLaws.boards_are_isolated
              Fixtures.fqbn other p2 "cpu" "atmega168" (warm data))
    as (_ & Hprogrammer & _).
  - discriminate.
  - exact Hprogrammer.
Defined.

(** X5: the second value of [cpu], selected twice. *)
Lemma selectConfigOption_read_back_witness :
  let st2 := (selectConfigOption Fixtures.fqbn "cpu" "atmega168" (warm configured)).2 in
  storage (selectConfigOption Fixtures.fqbn "cpu" "atmega168" st2).2 = storage st2.
Proof.
  destruct (BoardsDataStoreLaws.selectConfigOption_read_back
              Fixtures.fqbn "cpu" "atmega168" (warm configured))
    as (d' & _ & _ & _ & Hsame).
  - vm_compute. reflexivity.
  - exact Hsame.
Defined.

(** X6: after that selection the programmers are those of the entry. *)
Lemma selectConfigOption_flags_only_witness :
  exists persisted : Data.t,
    storage (selectConfigOption Fixtures.fqbn "cpu" "atmega168" (warm configured)).2
      !! getStorageKey Fixtures.fqbn = Some (toStored persisted) /\
    Data.programmers persisted
      = Data.programmers (getData (Some Fixtures.fqbn) (warm configured)).1.
Proof.
  destruct (BoardsDataStoreLaws.selectConfigOption_flags_only
              Fixtures.fqbn "cpu" "atmega168" (warm configured))
    as (persisted & Hstored & _ & _ & Hprogrammers & _).
  - vm_compute. reflexivity.
  - exists persisted. split; [exact Hstored|exact Hprogrammers].
Defined.

(** X8 for the stored entry of the test suite, with programmers
    compared field by field. *)
Lemma selections_stay_members_witness :
  Invariants.selectionsAreMembers (selectProgrammer Fixtures.fqbn p2 (warm data)).2.
Proof.
  destruct (BoardsDataStoreLaws.selections_stay_members
              Fixtures.fqbn p2 "cpu" "atmega168" (warm data))
    as (_ & _ & Hprogrammer & _).
  - intros [i n pl]. simpl. by rewrite !bool_decide_eq_true_2.
  - intros key v Hv His. simpl in Hv.
    apply lookup_singleton_Some in Hv as [_ <-]. reflexivity.
  - exact Hprogrammer.
Defined.

(** X10: the platform of [a:b:c] is installed again while [p2] is
    selected; the stored entry is the fresh one, with the default [p1]. *)
Lemma onPlatformDidInstall_refreshes_witness :
  storage (onPlatformDidInstall [Fixtures.fqbn] (warm chosen)).2
    !! getStorageKey Fixtures.fqbn = Some (toStored data).
Proof.
  destruct (BoardsDataStoreLaws.onPlatformDidInstall_refreshes
              [Fixtures.fqbn] (warm chosen)) as (Hrefreshed & _).
  apply (Hrefreshed Fixtures.fqbn boardDetails).
  - apply list_elem_of_here.
  - reflexivity.
  - reflexivity.
Defined.

(** X15: the rejected request for board details is what the disabled
    message says. *)
Lemma refreshState_details_failure_witness :
  DebugState.disabledMessage
    (DebugState.refreshState (Some (Debug.Opened sketch)) (Some Fixtures.board)
       detailsRejected DebugState.initial)
    = Some "platform is not installed".
Proof.
  rewrite (DebugLaws.refreshState_details_failure
             (Some (Debug.Opened sketch)) detailsRejected DebugState.initial
             sketch Fixtures.board Fixtures.fqbn "platform is not installed").
  - reflexivity.
  - reflexivity.
  - reflexivity.
  - right. split; [reflexivity|]. split; eexists; reflexivity.
Defined.

(** X16 with the callbacks of the test suite that are not to be
    called: the first one throws, the others are not reached. *)
Lemma isDebugEnabled_throw_or_reject_witness :
  Debug.run (Some (Debug.Opened sketch)) (Some Fixtures.board) failing
    = (Debug.Abrupt (Debug.Raised "unexpected call"),
       [Debug.CallGetDetails Fixtures.fqbn]).
Proof.
  destruct (DebugLaws.isDebugEnabled_throw_or_reject
              (Some (Debug.Opened sketch)) failing sketch Fixtures.board
              Fixtures.fqbn "unexpected call") as [Hthrows _].
  - reflexivity.
  - reflexivity.
  - exact (Hthrows eq_refl).
Defined.

(** X17: the CLI fails on a file of the sketch's build folder, and the
    sketch is reported as not compiled. *)
Lemma isSketchNotVerifiedError_classifies_witness :
  (Debug.run (Some (Debug.Opened sketch)) (Some Fixtures.board)
     (DebugState.withOwnClassifier notCompiled)).1
    = Debug.Abrupt
        (Debug.NewError
           "Sketch 'My_Sketch' must be verified before starting a debug session").
Proof.
  destruct (DebugLaws.isSketchNotVerifiedError_classifies
              (Some (Debug.Opened sketch)) (Some Fixtures.board) notCompiled)
    as [_ Hcli].
  apply (Hcli sketch Fixtures.board
           {| CheckDebugEnabledParams.fqbn := "a:b:c";
              CheckDebugEnabledParams.programmer := "p1";
              CheckDebugEnabledParams.sketchUri := "file:///path/to/mySketch/" |}
           "no such file: /tmp/arduino/sketches/ABCDEF/My_Sketch.ino.elf").
  - reflexivity.
  - reflexivity.
  - reflexivity.
  - reflexivity.
  - right. reflexivity.
Defined.

(** The two forms of [findDefaultProgrammer] differ at the empty id. *)
Example findDefaultProgrammer_empty_id :
  findDefaultProgrammer [unnamed; p1] (ArgString "") = None /\
  findDefaultProgrammer [unnamed; p1]
    (ArgData {| Data.configOptions := []; Data.programmers := [unnamed; p1];
                Data.selectedProgrammer := None;
                Data.defaultProgrammerId := Some "" |}) = Some unnamed.
Proof. split; reflexivity. Qed.
End LawsAtInputs.
